(** * OTM2-tiler: the filter-string compilers

    A shallow embedding of [filterStringToSql.js] (the compiler from an
    OpenTreeMap 2 filter to a SQL WHERE clause) and of
    [filterStringToTables.js] (the choice of the join-table set), followed by
    the properties of the two modules.

    Conventions of the embedding.
    - A JavaScript string is a [string]: a sequence of code units below 256.
      Within that alphabet the regular-expression classes [\w] and [\s] are
      the ones written out in [JS.is_word] and [JS.is_space].
    - A JavaScript number is an integer [Z], printed in decimal (the printing
      of JavaScript for integers of magnitude below 10^21).
    - A thrown exception is a value of [exn]; a function that may throw
      returns a [result].
    - A parsed object is the list of its own entries in enumeration order;
      [_.each] and [_.map] of underscore visit exactly these entries (objects
      holding a numeric [length] entry, which underscore would take for
      array-likes, are outside the embedding). *)

From Stdlib Require Import String Ascii List ZArith Bool Lia DecimalString.
Import ListNotations.
Local Open Scope list_scope.
Local Open Scope string_scope.

Set Warnings "-register-all".

(** ** Exceptions and results *)

Inductive exn : Type :=
| Error (msg : string)      (* [throw new Error(msg)] *)
| TypeError                 (* raised by the engine: a call or a property
                               access on something that does not support it *)
| SyntaxError.              (* raised by [JSON.parse] *)

Inductive result (A : Type) : Type :=
| Ok (a : A)
| Throw (e : exn).

Arguments Ok {A} a.
Arguments Throw {A} e.

Definition bind {A B : Type} (c : result A) (k : A -> result B) : result B :=
  match c with
  | Ok a => k a
  | Throw e => Throw e
  end.

Notation "x <- c ;; k" := (bind c (fun x => k))
  (at level 61, c at next level, right associativity).
Notation "c ;;; k" := (bind c (fun _ => k))
  (at level 61, right associativity).

Section Traversals.
Context {A B : Type}.
Variable f : A -> result B.

(** [_.map(list, f)] where [f] may throw: the first exception, from left to
    right, escapes. *)
Fixpoint mapM (l : list A) : result (list B) :=
  match l with
  | [] => Ok []
  | x :: l' => y <- f x ;; ys <- mapM l' ;; Ok (y :: ys)
  end.
End Traversals.

Section Each.
Context {A : Type}.
Variable f : A -> result unit.

(** [_.each(list, f)] where [f] may throw. *)
Fixpoint each (l : list A) : result unit :=
  match l with
  | [] => Ok tt
  | x :: l' => f x ;;; each l'
  end.
End Each.

(** ** The JavaScript primitives the two modules use *)

Module JS.

(** The double-quote character (code 34) as a one-character string. *)
Definition dquote : string := String (ascii_of_nat 34) EmptyString.

(** A name in double quotes. *)
Definition quoted (name : string) : string := dquote ++ name ++ dquote.

Definition code (c : ascii) : N := N_of_ascii c.

Definition in_range (lo hi : N) (c : ascii) : bool :=
  (lo <=? code c)%N && (code c <=? hi)%N.

Definition is_digit (c : ascii) : bool := in_range 48 57 c.

(** [\w]: [A-Za-z0-9_]. *)
Definition is_word (c : ascii) : bool :=
  in_range 65 90 c || in_range 97 122 c || is_digit c || (code c =? 95)%N.

(** [\s] on code units below 256: tab, line feed, vertical tab, form feed,
    carriage return, space and the no-break space. *)
Definition is_space (c : ascii) : bool :=
  in_range 9 13 c || (code c =? 32)%N || (code c =? 160)%N.

Fixpoint all_chars (p : ascii -> bool) (s : string) : bool :=
  match s with
  | EmptyString => true
  | String c s' => p c && all_chars p s'
  end.

(** Whether [s] begins with [p]. *)
Fixpoint starts_with (p s : string) : bool :=
  match p with
  | EmptyString => true
  | String a p' =>
      match s with
      | EmptyString => false
      | String b s' => Ascii.eqb a b && starts_with p' s'
      end
  end.

Fixpoint drop (n : nat) (s : string) : string :=
  match n, s with
  | O, _ => s
  | S n', String _ s' => drop n' s'
  | S _, EmptyString => EmptyString
  end.

(** [s.split(sep)] for a one-character separator: every occurrence of the
    separator cuts; the empty string gives one empty part. *)
Fixpoint split (sep : ascii) (s : string) : list string :=
  match s with
  | EmptyString => [EmptyString]
  | String c s' =>
      if Ascii.eqb c sep then EmptyString :: split sep s'
      else match split sep s' with
           | part :: parts => String c part :: parts
           | [] => [String c EmptyString]
           end
  end.

(** [parts.join(sep)]. *)
Definition join (sep : string) (parts : list string) : string :=
  String.concat sep parts.

(** [s.replace(pat, repl)] with a string pattern (and a replacement without
    [$]): only the first occurrence of [pat], from the left, is replaced. *)
Fixpoint replace (pat repl s : string) : string :=
  match s with
  | EmptyString => if starts_with pat EmptyString then repl else EmptyString
  | String c s' =>
      if starts_with pat s then repl ++ drop (String.length pat) s
      else String c (replace pat repl s')
  end.

(** Whether [pat] occurs in [s]: [s.match(/pat/)] is not null, for a
    pattern without metacharacters. *)
Fixpoint includes (pat s : string) : bool :=
  starts_with pat s ||
  match s with
  | EmptyString => false
  | String _ s' => includes pat s'
  end.

(** Whether the character [c] occurs in [s], and how often. *)
Fixpoint has_char (c : ascii) (s : string) : bool :=
  match s with
  | EmptyString => false
  | String c' s' => Ascii.eqb c' c || has_char c s'
  end.

Fixpoint count_char (c : ascii) (s : string) : nat :=
  match s with
  | EmptyString => O
  | String c' s' => (if Ascii.eqb c' c then 1 else 0) + count_char c s'
  end.

(** ToString of an integer number. *)
Definition number_toString (n : Z) : string :=
  NilZero.string_of_int (Z.to_int n).

(** The members an object literal inherits from [Object.prototype], each
    with its ToString: a lookup [table[key]] finds them when [table] has no
    own entry [key]. *)
Definition native (name : string) : string :=
  "function " ++ name ++ "() { [native code] }".

Definition Object_prototype : list (string * string) :=
  [ ("constructor", native "Object");
    ("hasOwnProperty", native "hasOwnProperty");
    ("isPrototypeOf", native "isPrototypeOf");
    ("propertyIsEnumerable", native "propertyIsEnumerable");
    ("toLocaleString", native "toLocaleString");
    ("toString", native "toString");
    ("valueOf", native "valueOf");
    ("__proto__", "[object Object]");
    ("__defineGetter__", native "__defineGetter__");
    ("__defineSetter__", native "__defineSetter__");
    ("__lookupGetter__", native "__lookupGetter__");
    ("__lookupSetter__", native "__lookupSetter__") ].

Fixpoint assoc {A : Type} (key : string) (entries : list (string * A))
  : option A :=
  match entries with
  | [] => None
  | (k, a) :: entries' =>
      if String.eqb k key then Some a else assoc key entries'
  end.

(** The outcome of [table[key]] on an object literal [table]. *)
Inductive lookup (A : Type) : Type :=
| Own (a : A)                   (* an own entry of the literal *)
| Inherited (text : string)     (* a member of [Object.prototype]: truthy,
                                   without any of the literal's fields *)
| Undefined.

Arguments Own {A} a.
Arguments Inherited {A} text.
Arguments Undefined {A}.

Definition get {A : Type} (table : list (string * A)) (key : string)
  : lookup A :=
  match assoc key table with
  | Some a => Own a
  | None =>
      match assoc key Object_prototype with
      | Some text => Inherited text
      | None => Undefined
      end
  end.

(** [_.contains(list, x)] on strings. *)
Definition contains (l : list string) (x : string) : bool :=
  existsb (String.eqb x) l.

End JS.

(** ** Values

    The values the compiler handles: what [JSON.parse] returns, and
    [undefined], which reading an absent property produces. *)

Inductive value : Type :=
| JUndefined
| JNull
| JBool (b : bool)
| JNum (n : Z)
| JStr (s : string)
| JArr (a : list value)
| JObj (o : list (string * value)).

Module Value.

(** [_.isObject(v)]: objects and arrays, not [null]. *)
Definition isObject (v : value) : bool :=
  match v with
  | JArr _ | JObj _ => true
  | _ => false
  end.

Definition isArray (v : value) : bool :=
  match v with
  | JArr _ => true
  | _ => false
  end.

(** ToBoolean. *)
Definition truthy (v : value) : bool :=
  match v with
  | JUndefined | JNull => false
  | JBool b => b
  | JNum n => negb (n =? 0)%Z
  | JStr s => negb (String.eqb s EmptyString)
  | JArr _ | JObj _ => true
  end.

(** [v.name] on a parsed value, for a [name] that [Object.prototype] and
    [Array.prototype] do not define. *)
Definition prop (name : string) (v : value) : value :=
  match v with
  | JObj o =>
      match JS.assoc name o with
      | Some x => x
      | None => JUndefined
      end
  | _ => JUndefined
  end.

(** ToString, as string concatenation applies it. Inside an array [null]
    and [undefined] print as the empty string. *)
Fixpoint toString (v : value) : string :=
  match v with
  | JUndefined => "undefined"
  | JNull => "null"
  | JBool true => "true"
  | JBool false => "false"
  | JNum n => JS.number_toString n
  | JStr s => s
  | JArr a =>
      JS.join ","
        (map (fun x => match x with
                       | JUndefined | JNull => EmptyString
                       | _ => toString x
                       end) a)
  | JObj _ => "[object Object]"
  end.

(** The decimal index names [0], [1], ..., [n-1]. *)
Definition indices (n : nat) : list string :=
  map (fun i => JS.number_toString (Z.of_nat i)) (seq 0 n).

(** [Object.keys(v)] for an object or an array. *)
Definition keys (v : value) : list string :=
  match v with
  | JObj o => map fst o
  | JArr a => indices (List.length a)
  | _ => []
  end.

End Value.

(** ** The datetime library *)

Module Moment.

(** Modelled from the spec: the datetime library [moment], which
    [isDateTimeString] and [dateTimeStringToSqlValue] call, is not part of
    the sources. The spec gives its use here as a strict datetime grammar
    requiring both a date and a time component ([YYYY-MM-DD HH:mm:ss] or
    [YYYY-MM-DDTHH:mm:ss]) where only full matches are datetimes. A format
    letter stands for one digit, the blank between date and time also
    admits [T], any other format character stands for itself. *)
Definition is_token_letter (c : ascii) : bool :=
  existsb (Ascii.eqb c) ["Y"; "M"; "D"; "H"; "m"; "s"]%char.

(** Modelled from the spec: one character of the input against one
    character of the format ([moment] is not part of the sources). *)
Definition matches_char (f c : ascii) : bool :=
  if is_token_letter f then JS.is_digit c
  else if Ascii.eqb f " " then Ascii.eqb c " " || Ascii.eqb c "T"
  else Ascii.eqb c f.

(** Modelled from the spec: the full match of the input against the format
    ([moment] is not part of the sources). *)
Fixpoint matches (format input : string) : bool :=
  match format, input with
  | EmptyString, EmptyString => true
  | String f format', String c input' =>
      matches_char f c && matches format' input'
  | _, _ => false
  end.

(** Modelled from the spec: a [moment] value, as far as the compiler reads
    it: whether the input matched, and the matched input. *)
Record t : Type := { valid : bool; text : string; parsed_with : string }.

(** Modelled from the spec: [moment(input, format)]. *)
Definition moment (input format : string) : t :=
  {| valid := matches format input; text := input; parsed_with := format |}.

(** Modelled from the spec: [m.isValid()], true on full matches only. *)
Definition isValid (m : t) : bool := valid m.

(** Modelled from the spec: the digits of [input] found under the first
    occurrence of [token] in the format the value was parsed with. *)
Fixpoint field (token : string) (format input : string) : string :=
  match format, input with
  | String _ format', String _ input' =>
      if JS.starts_with token format
      then String.substring 0 (String.length token) input
      else field token format' input'
  | _, _ => EmptyString
  end.

(** Modelled from the spec: [m.format(f)] writes a recognized datetime back
    as [YYYY-MM-DD] and [HH:mm:ss]: each token of [f] is replaced by the
    digits matched for it, other characters are kept. *)
Fixpoint format_fuel (fuel : nat) (m : t) (f : string) : string :=
  match fuel with
  | O => EmptyString
  | S fuel' =>
      match f with
      | EmptyString => EmptyString
      | String c f' =>
          if JS.starts_with "YYYY" f
          then field "YYYY" (parsed_with m) (text m)
               ++ format_fuel fuel' m (JS.drop 4 f)
          else if is_token_letter c && JS.starts_with (String c (String c EmptyString)) f
          then field (String c (String c EmptyString)) (parsed_with m) (text m)
               ++ format_fuel fuel' m (JS.drop 2 f)
          else String c (format_fuel fuel' m f')
      end
  end.

(** Modelled from the spec: [m.format(f)]; one unit of fuel for each
    character of [f] is enough. *)
Definition format (m : t) (f : string) : string :=
  format_fuel (S (String.length f)) m f.

End Moment.

(** ** filterStringToSql.js *)

Module FilterStringToSql.

Import JS.

(** *** Constants *)

(** [MODEL_MAPPING]: short model name to physical table name. *)
Definition MODEL_MAPPING : list (string * string) :=
  [ ("plot", "treemap_plot");
    ("tree", "treemap_tree") ].

(** [DATETIME_FORMATS]. *)
Record datetime_formats : Type :=
  { full : string; date : string; time : string }.

Definition DATETIME_FORMATS : datetime_formats :=
  {| full := "YYYY-MM-DD HH:mm:ss";
     date := "YYYY-MM-DD";
     time := "HH:mm:ss" |}.

(** *** Literals *)

(** What a value converter returns: the number itself, or SQL text. *)
Inductive literal : Type :=
| LNum (n : Z)
| LStr (s : string).

Definition literal_toString (l : literal) : string :=
  match l with
  | LNum n => number_toString n
  | LStr s => s
  end.

(** The class [[\w\s;]] of the sanitizer's regular expression. *)
Definition trailing_statement_char (c : ascii) : bool :=
  is_word c || is_space c || Ascii.eqb c ";".

(** [sanitizeSqlString]: [value.replace(/;[\w\s;]*$/, '')]. The expression
    matches at the leftmost [;] whose whole remainder, up to the end of the
    string, lies in the class; the match is removed. Without such a [;] the
    string is returned as it is. *)
Fixpoint sanitizeSqlString (value : string) : string :=
  match value with
  | EmptyString => EmptyString
  | String c rest =>
      if Ascii.eqb c ";" && all_chars trailing_statement_char rest
      then EmptyString
      else String c (sanitizeSqlString rest)
  end.

(** The two messages of [fieldNameToColumnName]. *)
Definition arity_message (fieldName : string) : string :=
  "Field names in predicate objects should be of the form "
  ++ dquote ++ "model.field" ++ dquote ++ ", not "
  ++ dquote ++ fieldName ++ dquote.

Definition model_message (model0 : string) : string :=
  "The model name must be one of the following: "
  ++ join ", " (map fst MODEL_MAPPING) ++ ". Not " ++ model0.

(** [fieldNameToColumnName]. The test of the model name stands twice in
    the source, before and after the column is sanitized. *)
Definition fieldNameToColumnName (fieldName : string) : result string :=
  let modelAndColumn := split "." fieldName in
  match modelAndColumn with
  | [model0; column1] =>
      match get MODEL_MAPPING model0 with
      | Undefined => Throw (Error (model_message model0))
      | found =>
          let model := match found with
                       | Own table => table
                       | Inherited text => text
                       | Undefined => "undefined"
                       end in
          let column := sanitizeSqlString column1 in
          match get MODEL_MAPPING model0 with
          | Undefined => Throw (Error (model_message model0))
          | _ => Ok (dquote ++ model ++ dquote ++ "." ++ dquote ++ column
                     ++ dquote)
          end
      end
  | _ => Throw (Error (arity_message fieldName))
  end.

(** [isDateTimeString]. *)
Definition isDateTimeString (value : string) : bool :=
  Moment.isValid (Moment.moment value (full DATETIME_FORMATS)).

(** [dateTimeStringToSqlValue]. *)
Definition dateTimeStringToSqlValue (dtString : string) : string :=
  let m := Moment.moment dtString (full DATETIME_FORMATS) in
  "(DATE '" ++ Moment.format m (date DATETIME_FORMATS)
  ++ "' + TIME '" ++ Moment.format m (time DATETIME_FORMATS) ++ "')".

(** [convertValueToEscapedSqlLiteral]. A value that is neither a number
    nor a string is no datetime and has no [replace] method: the call in
    the last branch raises a [TypeError]. *)
Definition convertValueToEscapedSqlLiteral (value : value) : result literal :=
  match value with
  | JNum n => Ok (LNum n)
  | JStr s =>
      if isDateTimeString s then Ok (LStr (dateTimeStringToSqlValue s))
      else Ok (LStr ("'" ++ replace "'" "''" (sanitizeSqlString s) ++ "'"))
  | _ => Throw TypeError
  end.

(** [convertValuesToEscapedSqlLiterals]. *)
Definition convertValuesToEscapedSqlLiterals (values : list value)
  : result (list literal) :=
  mapM convertValueToEscapedSqlLiteral values.

(** [convertArrayValueToEscapedSqlLiteral]. *)
Definition convertArrayValueToEscapedSqlLiteral (arrayValue : value)
  : result literal :=
  match arrayValue with
  | JArr a =>
      ls <- convertValuesToEscapedSqlLiterals a ;;
      Ok (LStr ("(" ++ join "," (map literal_toString ls) ++ ")"))
  | _ =>
      Throw (Error "Non-array passed to convertArrayValueToEscapedSqlLiteral")
  end.

(** *** Predicate types *)

Record predicate_type : Type :=
  { combinesWith : list string;
    matcher : string;
    exclusiveMatcher : option string;
    valueConverter : value -> result literal }.

(** [PREDICATE_TYPES]. *)
Definition PREDICATE_TYPES : list (string * predicate_type) :=
  [ ("IS", {| combinesWith := [];
              matcher := "=";
              exclusiveMatcher := None;
              valueConverter := convertValueToEscapedSqlLiteral |});
    ("IN", {| combinesWith := [];
              matcher := "IN";
              exclusiveMatcher := None;
              valueConverter := convertArrayValueToEscapedSqlLiteral |});
    ("LIKE", {| combinesWith := [];
                matcher := "ILIKE";
                exclusiveMatcher := None;
                valueConverter := convertValueToEscapedSqlLiteral |});
    ("MIN", {| combinesWith := ["MAX"];
               matcher := ">=";
               exclusiveMatcher := Some ">";
               valueConverter := convertValueToEscapedSqlLiteral |});
    ("MAX", {| combinesWith := ["MIN"];
               matcher := "<=";
               exclusiveMatcher := Some "<";
               valueConverter := convertValueToEscapedSqlLiteral |}) ].

(** The two messages of [validatePredicate]. *)
Definition unsupported_key_message (key : string) : string :=
  "Predicates support the following keys: "
  ++ join "," (map fst PREDICATE_TYPES) ++ " not " ++ key.

Definition combination_message (keys : list string) (key : string)
  (t : predicate_type) : string :=
  "A predicate with keys " ++ join "," keys
  ++ " is not valid because the predicate key " ++ key
  ++ " can only be combined with the following keys: "
  ++ join "," (combinesWith t).

(** The body of the loop of [validatePredicate], for one [key]. For a key
    that [PREDICATE_TYPES] only inherits, [combinesWith] is [undefined]:
    [_.contains] answers [false] on it, and [join] on it raises. *)
Definition validateKey (keys : list string) (key : string) : result unit :=
  match get PREDICATE_TYPES key with
  | Undefined => Throw (Error (unsupported_key_message key))
  | Own t =>
      if forallb (fun otherKey =>
                    String.eqb key otherKey
                    || contains (combinesWith t) otherKey) keys
      then Ok tt
      else Throw (Error (combination_message keys key t))
  | Inherited _ =>
      if forallb (fun otherKey => String.eqb key otherKey || false) keys
      then Ok tt
      else Throw TypeError
  end.

(** [validatePredicate]. *)
Definition validatePredicate (predicate : value) : result unit :=
  if negb (Value.isObject predicate)
  then Throw (Error "Predicates must be objects")
  else
    let keys := Value.keys predicate in
    each (validateKey keys) keys.

(** A filter object: [{matcher: ..., value: ...}]; the matcher is
    [undefined] when an exclusive matcher is asked of a type without one. *)
Record filter_object : Type :=
  { fo_matcher : option string; fo_value : literal }.

Definition matcher_toString (m : option string) : string :=
  match m with
  | Some s => s
  | None => "undefined"
  end.

(** [predicateValueAndTypeToFilterObject]. The [predicateType] is an own
    key of the predicate; on a type that [PREDICATE_TYPES] does not define
    itself the call of [t.valueConverter] (or, for no type at all, the
    reading of [t.matcher]) raises a [TypeError]. *)
Definition predicateValueAndTypeToFilterObject (predicateValue : value)
  (predicateType : string) : result filter_object :=
  match get PREDICATE_TYPES predicateType with
  | Own t =>
      let '(matcher, value) :=
        if Value.isObject predicateValue
           && negb (Value.isArray predicateValue)
        then ((if Value.truthy (Value.prop "EXCLUSIVE" predicateValue)
               then exclusiveMatcher t else Some (matcher t)),
              Value.prop "value" predicateValue)
        else (Some (matcher t), predicateValue) in
      v <- valueConverter t value ;;
      Ok {| fo_matcher := matcher; fo_value := v |}
  | _ => Throw TypeError
  end.

(** [predicateToFilterObjects]. After validation the predicate is an
    object, or an array without elements ([_.map] hands the callback an
    index, which is no predicate type, for each element of an array). *)
Definition predicateToFilterObjects (predicate : value)
  : result (list filter_object) :=
  validatePredicate predicate ;;;
  match predicate with
  | JObj o =>
      mapM (fun kv => predicateValueAndTypeToFilterObject (snd kv) (fst kv)) o
  | JArr a => mapM (fun _ => Throw TypeError) a
  | _ => Ok []
  end.

(** [fieldNameAndPredicateToSql]. *)
Definition fieldNameAndPredicateToSql (fieldName : string)
  (predicate : value) : result string :=
  columnName <- fieldNameToColumnName fieldName ;;
  filters <- predicateToFilterObjects predicate ;;
  let filterStatements :=
    map (fun f => columnName ++ " " ++ matcher_toString (fo_matcher f)
                  ++ " " ++ literal_toString (fo_value f)) filters in
  Ok ("(" ++ join " AND " filterStatements ++ ")").

(** [objectToSql]. *)
Definition objectToSql (o : list (string * value)) : result string :=
  statements <-
    mapM (fun entry =>
            let '(fieldName, valueOrPredicate) := entry in
            let predicate :=
              if negb (Value.isObject valueOrPredicate)
              then JObj [("IS", valueOrPredicate)]
              else valueOrPredicate in
            fieldNameAndPredicateToSql fieldName predicate) o ;;
  Ok (join " AND " statements).

Definition combinator_message (a0 : value) : string :=
  "The first element of a combinator array must be "
  ++ dquote ++ "AND" ++ dquote ++ " or " ++ dquote ++ "OR" ++ dquote
  ++ ", not " ++ Value.toString a0.

(** [arrayToSql], with the recursive call to [filterToSql] as a
    parameter. *)
Definition arrayToSql (filterToSql : value -> result string)
  (a : list value) : result string :=
  match a with
  | [] => Throw (Error "An empty array is not a valid combinator")
  | a0 :: filters =>
      match a0 with
      | JStr op =>
          if String.eqb op "AND" || String.eqb op "OR"
          then
            statements <- mapM filterToSql filters ;;
            Ok ("(" ++ join (" " ++ op ++ " ") statements ++ ")")
          else Throw (Error (combinator_message a0))
      | _ => Throw (Error (combinator_message a0))
      end
  end.

(** [filterToSql]. *)
Fixpoint filterToSql (f : value) : result string :=
  match f with
  | JArr a => arrayToSql filterToSql a
  | JObj o => objectToSql o
  | _ => Throw (Error "A filter must be an Object or an Array")
  end.

(** The argument of the exported function: a string, or one of the values
    callers pass for a missing filter. *)
Inductive argument : Type :=
| undefined
| null
| text (s : string).

(** [!s]. *)
Definition falsy (s : argument) : bool :=
  match s with
  | undefined | null => true
  | text t => String.eqb t EmptyString
  end.

(** [module.exports]; [JSON_parse] is the engine's [JSON.parse]. *)
Definition exports (JSON_parse : string -> result value) (s : argument)
  : result string :=
  if falsy s then Ok EmptyString
  else
    match s with
    | text t => parsed <- JSON_parse t ;; filterToSql parsed
    | _ => Ok EmptyString
    end.

End FilterStringToSql.

(** ** filterStringToTables.js *)

Module FilterStringToTables.

Import JS.

(** The part of [config.json] the module reads,
    [config.sqlForPlots.tables]: its two entries are taken as they come,
    whatever the join-table sets are. *)
Record tables (TableSet : Type) : Type :=
  { tree : TableSet; plot : TableSet }.

Arguments tree {TableSet} t.
Arguments plot {TableSet} t.

Definition empty_filter_message : string :=
  "A null, undefined, or empty filter string cannot be converted to SQL".

(** [module.exports]: [s.match(/(tree\.|species\.)/)] is not null exactly
    when one of the two alternatives occurs somewhere in [s]. *)
Definition exports {TableSet : Type} (config_tables : tables TableSet)
  (s : FilterStringToSql.argument) : result TableSet :=
  if FilterStringToSql.falsy s
  then Throw (Error empty_filter_message)
  else
    match s with
    | FilterStringToSql.text t =>
        if includes "tree." t || includes "species." t
        then Ok (tree config_tables)
        else Ok (plot config_tables)
    | _ => Throw (Error empty_filter_message)
    end.

End FilterStringToTables.

(** ** The vocabulary of the specification *)

Module Spec.

Import JS.

(** [p] occurs in [s] as a substring. *)
Definition occurs (p s : string) : Prop :=
  exists before after, s = before ++ p ++ after.

(** Every single quote doubled. *)
Fixpoint double_quotes (s : string) : string :=
  match s with
  | EmptyString => EmptyString
  | String c s' =>
      if Ascii.eqb c "'" then String c (String c (double_quotes s'))
      else String c (double_quotes s')
  end.

(** The model whitelist. *)
Definition whitelisted (model : string) : Prop :=
  model = "plot" \/ model = "tree".

(** The supported predicate keys. *)
Definition supported_keys : list string := ["IS"; "IN"; "LIKE"; "MIN"; "MAX"].

(** The only pair of distinct keys that combine. *)
Definition combinable (k1 k2 : string) : Prop :=
  (k1 = "MIN" /\ k2 = "MAX") \/ (k1 = "MAX" /\ k2 = "MIN").

(** A key set is valid when every key is supported and any two distinct
    keys combine. *)
Definition valid_keys (keys : list string) : Prop :=
  (forall k, In k keys -> In k supported_keys) /\
  (forall k1 k2, In k1 keys -> In k2 keys -> k1 <> k2 -> combinable k1 k2).

(** A key that an object literal finds on [Object.prototype]. *)
Definition inherited (k : string) : Prop :=
  In k (map fst Object_prototype).

(** A value written directly, not an object and not an array. *)
Definition scalar (v : value) : Prop := Value.isObject v = false.

(** A filter that makes one clause: a combinator, or a predicate set with
    one field. *)
Definition one_clause (F : value) : Prop :=
  Value.isArray F = true \/ exists fieldName v, F = JObj [(fieldName, v)].

(** The characters of a bare date: digits and dashes. *)
Definition date_char (c : ascii) : bool := is_digit c || Ascii.eqb c "-".

(** A bare date: [YYYY-MM-DD], no time component. *)
Definition bare_date (s : string) : bool :=
  Moment.matches (FilterStringToSql.date FilterStringToSql.DATETIME_FORMATS) s.

(** The column reference of a resolved field name: the quoted table of the
    model and the quoted, sanitized column. *)
Definition column (model column : string) : string :=
  dquote ++ "treemap_" ++ model ++ dquote ++ "." ++ dquote
  ++ FilterStringToSql.sanitizeSqlString column ++ dquote.

(** One comparison of a clause: column, operator, literal. *)
Definition comparison (column operator operand : string) : string :=
  column ++ " " ++ operator ++ " " ++ operand.


(** An object with a numeric [length] entry, which underscore iterates as
    an array-like. *)
Definition numeric_length (f : value) : bool :=
  match f with
  | JObj o =>
      match assoc "length" o with
      | Some (JNum _) => true
      | _ => false
      end
  | _ => false
  end.


End Spec.

Import JS FilterStringToSql.

(** * Properties *)

(** ** Strings *)

Lemma append_nil_r (s : string) : s ++ "" = s.
Proof. induction s as [|c s IH]; simpl; [reflexivity | now rewrite IH]. Qed.

Lemma append_assoc (a b c : string) : (a ++ b) ++ c = a ++ (b ++ c).
Proof. induction a as [|x a IH]; simpl; [reflexivity | now rewrite IH]. Qed.

Lemma length_append (a b : string) :
  String.length (a ++ b) = String.length a + String.length b.
Proof. induction a as [|x a IH]; simpl; [reflexivity | now rewrite IH]. Qed.

Lemma all_chars_impl (p q : ascii -> bool) (s : string) :
  (forall c, p c = true -> q c = true) ->
  all_chars p s = true -> all_chars q s = true.
Proof.
  intros Hpq. induction s as [|c s IH]; simpl; [reflexivity |].
  intros H. apply andb_true_iff in H as [Hc Hs].
  rewrite (Hpq _ Hc), (IH Hs). reflexivity.
Qed.

Lemma has_char_all_chars (c : ascii) (s : string) :
  has_char c s = false <-> all_chars (fun x => negb (Ascii.eqb x c)) s = true.
Proof.
  induction s as [|x s IH]; simpl; [tauto |].
  rewrite orb_false_iff, andb_true_iff, negb_true_iff, IH. tauto.
Qed.

Lemma has_char_append (c : ascii) (a b : string) :
  has_char c (a ++ b) = has_char c a || has_char c b.
Proof.
  induction a as [|x a IH]; simpl; [reflexivity |].
  now rewrite IH, orb_assoc.
Qed.

Lemma starts_with_occurs (p s : string) :
  starts_with p s = true <-> exists rest, s = p ++ rest.
Proof.
  revert s. induction p as [|c p IH]; intros s; simpl.
  - split; [intros _; now exists s | reflexivity].
  - destruct s as [|x s].
    + split; [discriminate | intros [rest H]; discriminate].
    + rewrite andb_true_iff, IH, Ascii.eqb_eq.
      split; [intros [-> [rest ->]]; now exists rest |].
      intros [rest H]. injection H as -> ->. split; [reflexivity | now exists rest].
Qed.

(** [JS.includes] decides [Spec.occurs]. *)
Lemma includes_occurs (p s : string) :
  includes p s = true <-> Spec.occurs p s.
Proof.
  unfold Spec.occurs. induction s as [|c s IH].
  - cbn [includes]. rewrite orb_false_r, starts_with_occurs. split.
    + intros [rest H]. now exists "", rest.
    + intros [[|x b] [a H]]; simpl in H; [now exists a | discriminate].
  - cbn [includes]. rewrite orb_true_iff, starts_with_occurs, IH. split.
    + intros [[rest H] | [b [a H]]].
      * now exists "", rest.
      * exists (String c b), a. simpl. now rewrite H.
    + intros [[|x b] [a H]]; simpl in H.
      * left. now exists a.
      * right. exists b, a. congruence.
Qed.

(** ** Scenarios of the test suite

    The embedding run on filters of [test/testFilterStringToSql.js]. *)

Example test_short_syntax :
  filterToSql (JObj [("tree.height", JNum 1)])
  = Ok ("(" ++ quoted "treemap_tree" ++ "." ++ quoted "height" ++ " = 1)").
Proof. reflexivity. Qed.

Example test_like :
  filterToSql (JObj [("plot.address", JObj [("LIKE", JStr "%Market St%")])])
  = Ok ("(" ++ quoted "treemap_plot" ++ "." ++ quoted "address"
        ++ " ILIKE '%Market St%')").
Proof. reflexivity. Qed.

Example test_exclusive_min_max :
  filterToSql
    (JObj [("tree.height",
            JObj [("MIN", JObj [("value", JNum 2); ("EXCLUSIVE", JBool true)]);
                  ("MAX", JObj [("value", JNum 3); ("EXCLUSIVE", JBool true)])])])
  = Ok ("(" ++ quoted "treemap_tree" ++ "." ++ quoted "height" ++ " > 2 AND "
        ++ quoted "treemap_tree" ++ "." ++ quoted "height" ++ " < 3)").
Proof. reflexivity. Qed.

Example test_multiple_fields :
  filterToSql
    (JObj [("tree.height", JObj [("MIN", JNum 1); ("MAX", JNum 2)]);
           ("plot.type", JObj [("IN", JArr [JNum 1; JNum 2])])])
  = Ok ("(" ++ quoted "treemap_tree" ++ "." ++ quoted "height" ++ " >= 1 AND "
        ++ quoted "treemap_tree" ++ "." ++ quoted "height" ++ " <= 2) AND ("
        ++ quoted "treemap_plot" ++ "." ++ quoted "type" ++ " IN (1,2))").
Proof. reflexivity. Qed.

Example test_nested_combinators :
  filterToSql
    (JArr [JStr "AND";
           JObj [("tree.height", JObj [("MIN", JNum 1)])];
           JArr [JStr "OR";
                 JObj [("plot.type", JObj [("IN", JArr [JNum 1; JNum 2])])];
                 JObj [("tree.dbh", JObj [("MIN", JNum 3)])]]])
  = Ok ("((" ++ quoted "treemap_tree" ++ "." ++ quoted "height" ++ " >= 1) AND (("
        ++ quoted "treemap_plot" ++ "." ++ quoted "type" ++ " IN (1,2)) OR ("
        ++ quoted "treemap_tree" ++ "." ++ quoted "dbh" ++ " >= 3)))").
Proof. reflexivity. Qed.

Example test_datetime_T :
  filterToSql (JObj [("tree.created", JObj [("MIN", JStr "2013-07-15T15:13:01")])])
  = Ok ("(" ++ quoted "treemap_tree" ++ "." ++ quoted "created"
        ++ " >= (DATE '2013-07-15' + TIME '15:13:01'))").
Proof. reflexivity. Qed.

Example test_twelve_hour_clock :
  filterToSql (JObj [("tree.created", JObj [("MIN", JStr "2013-07-15 2:12 PM")])])
  = Ok ("(" ++ quoted "treemap_tree" ++ "." ++ quoted "created"
        ++ " >= '2013-07-15 2:12 PM')").
Proof. reflexivity. Qed.

Example test_sanitizes_column_names :
  filterToSql
    (JObj [("tree.height; DROP TABLE treemap_tree;", JObj [("IS", JNum 1)])])
  = Ok ("(" ++ quoted "treemap_tree" ++ "." ++ quoted "height" ++ " = 1)").
Proof. reflexivity. Qed.

Example test_sanitizes_values :
  filterToSql
    (JObj [("tree.height",
            JObj [("IS", JStr "1; SELECT 1; DROP TABLE treemap_tree;")])])
  = Ok ("(" ++ quoted "treemap_tree" ++ "." ++ quoted "height" ++ " = '1')").
Proof. reflexivity. Qed.

Example test_unknown_model :
  filterToSql (JObj [("foo.height", JNum 1)])
  = Throw (Error "The model name must be one of the following: plot, tree. Not foo").
Proof. reflexivity. Qed.

Example test_empty_combinator :
  filterToSql (JArr []) = Throw (Error "An empty array is not a valid combinator").
Proof. reflexivity. Qed.

(** ** The sanitizer and the value literal converter *)

Lemma sanitize_no_semicolon (s : string) :
  has_char ";" s = false -> sanitizeSqlString s = s.
Proof.
  induction s as [|c s IH]; simpl; [reflexivity |].
  intros H. apply orb_false_iff in H as [Hc Hs].
  rewrite Hc. simpl. now rewrite (IH Hs).
Qed.

Lemma sanitize_cut (p r : string) :
  has_char ";" p = false ->
  all_chars trailing_statement_char r = true ->
  sanitizeSqlString (p ++ ";" ++ r) = p.
Proof.
  intros Hp Hr. induction p as [|c p IH]; simpl in *.
  - now rewrite Hr.
  - apply orb_false_iff in Hp as [Hc Hp].
    rewrite Hc. simpl. now rewrite (IH Hp).
Qed.

Lemma sanitize_skip (p r : string) :
  has_char ";" p = false ->
  all_chars trailing_statement_char r = false ->
  sanitizeSqlString (p ++ ";" ++ r) = p ++ ";" ++ sanitizeSqlString r.
Proof.
  intros Hp Hr. induction p as [|c p IH]; simpl in *.
  - now rewrite Hr.
  - apply orb_false_iff in Hp as [Hc Hp].
    rewrite Hc. simpl. now rewrite (IH Hp).
Qed.

(** A string whose last character is outside the class of the sanitizer
    passes through it unchanged, whatever semicolons it holds. *)
Lemma sanitize_keeps_foreign_tail (s : string) (c : ascii) :
  trailing_statement_char c = false ->
  sanitizeSqlString (s ++ String c "") = s ++ String c "".
Proof.
  intros Hc.
  assert (Hall : forall t, all_chars trailing_statement_char (t ++ String c "") = false).
  { induction t as [|x t IH]; simpl.
    - now rewrite Hc.
    - rewrite IH. apply andb_false_r. }
  induction s as [|x s IH]; simpl.
  - unfold trailing_statement_char in Hc.
    apply orb_false_iff in Hc as [_ Hc]. now rewrite Hc.
  - rewrite Hall, andb_false_r. now rewrite IH.
Qed.

Lemma replace_no_quote (s : string) :
  has_char "'" s = false -> replace "'" "''" s = s.
Proof.
  induction s as [|c s IH]; [reflexivity |].
  intros H. simpl in H. apply orb_false_iff in H as [Hc Hs].
  cbn [replace starts_with]. rewrite Ascii.eqb_sym, Hc. simpl.
  now rewrite (IH Hs).
Qed.

Lemma replace_quote_length (s : string) :
  String.length (replace "'" "''" s)
  = String.length s + (if has_char "'" s then 1 else 0).
Proof.
  induction s as [|c s IH]; [reflexivity |].
  cbn [replace starts_with has_char]. rewrite (Ascii.eqb_sym "'" c).
  destruct (Ascii.eqb c "'"); simpl.
  - lia.
  - rewrite IH. lia.
Qed.

Lemma double_quotes_length (s : string) :
  String.length (Spec.double_quotes s) = String.length s + count_char "'" s.
Proof.
  induction s as [|c s IH]; [reflexivity |].
  simpl. destruct (Ascii.eqb c "'"); simpl; rewrite IH; lia.
Qed.

Lemma count_char_has_char (c : ascii) (s : string) :
  has_char c s = false <-> count_char c s = 0.
Proof.
  induction s as [|x s IH]; simpl; [tauto |].
  destruct (Ascii.eqb x c); simpl; [split; [discriminate | lia] | exact IH].
Qed.

(** The converter on a string that is no datetime. *)
Lemma convert_plain_string (s : string) :
  isDateTimeString s = false ->
  convertValueToEscapedSqlLiteral (JStr s)
  = Ok (LStr ("'" ++ replace "'" "''" (sanitizeSqlString s) ++ "'")).
Proof. intros H. unfold convertValueToEscapedSqlLiteral. now rewrite H. Qed.

(** With at most one single quote left by the sanitizer, the literal is the
    one with every quote doubled. *)
Lemma replace_is_double_quotes (s : string) :
  count_char "'" s <= 1 -> replace "'" "''" s = Spec.double_quotes s.
Proof.
  induction s as [|c s IH]; [reflexivity |].
  cbn [replace starts_with count_char Spec.double_quotes].
  rewrite (Ascii.eqb_sym "'" c).
  destruct (Ascii.eqb_spec c "'") as [->|Hne]; simpl; intros H.
  - assert (H0 : has_char "'" s = false) by (apply count_char_has_char; lia).
    clear IH. f_equal. f_equal.
    induction s as [|x s IHs]; [reflexivity |].
    simpl in H0 |- *. apply orb_false_iff in H0 as [Hx Hs].
    rewrite Hx. f_equal. apply IHs; [|exact Hs].
    simpl in H. rewrite Hx in H. exact H.
  - f_equal. apply IH. exact H.
Qed.

(** With two or more, the literal of the code is never that one. *)
Lemma replace_is_not_double_quotes (s : string) :
  2 <= count_char "'" (sanitizeSqlString s) ->
  isDateTimeString s = false ->
  convertValueToEscapedSqlLiteral (JStr s)
  <> Ok (LStr ("'" ++ Spec.double_quotes (sanitizeSqlString s) ++ "'")).
Proof.
  intros Hcount Hdt. rewrite (convert_plain_string _ Hdt).
  intros Heq. injection Heq as Heq.
  apply (f_equal String.length) in Heq.
  rewrite !length_append, replace_quote_length, double_quotes_length in Heq.
  destruct (has_char "'" (sanitizeSqlString s)); simpl in Heq; lia.
Qed.

(** C1. The documented behaviour is that every single quote of a plain
    string is doubled in the literal. On the value [a'b'c] the converter
    doubles the first quote only: it returns ['a''b'c'] and not the literal
    ['a''b''c'] with both quotes doubled. *)
Theorem convert_doubles_only_first_quote :
  isDateTimeString "a'b'c" = false /\
  sanitizeSqlString "a'b'c" = "a'b'c" /\
  convertValueToEscapedSqlLiteral (JStr "a'b'c") = Ok (LStr "'a''b'c'") /\
  Spec.double_quotes "a'b'c" = "a''b''c" /\
  convertValueToEscapedSqlLiteral (JStr "a'b'c")
  <> Ok (LStr ("'" ++ Spec.double_quotes "a'b'c" ++ "'")) /\
  filterToSql (JObj [("plot.address", JObj [("IS", JStr "a'b'c")])])
  = Ok ("(" ++ quoted "treemap_plot" ++ "." ++ quoted "address"
        ++ " = 'a''b'c')").
Proof.
  repeat split; try reflexivity.
  apply (replace_is_not_double_quotes "a'b'c"); [simpl; lia | reflexivity].
Qed.

(** C2, as stated, fails: after the first [;] of the value
    [1; DROP TABLE treemap_tree --] comes a character, [-], outside the class
    of the sanitizer, and the literal keeps the whole value. *)
Lemma semicolon_tail_kept :
  isDateTimeString "1; DROP TABLE treemap_tree --" = false /\
  convertValueToEscapedSqlLiteral (JStr "1; DROP TABLE treemap_tree --")
  = Ok (LStr "'1; DROP TABLE treemap_tree --'") /\
  convertValueToEscapedSqlLiteral (JStr "1; DROP TABLE treemap_tree --")
  <> Ok (LStr "'1'").
Proof. repeat split; try reflexivity. discriminate. Qed.

(** C2, amended. For a string value that is no datetime, the sanitizer
    removes everything from the first [;] on exactly when every character
    after that [;] is a word character, a white space or a [;]; the literal
    is then made of the prefix before the first [;] alone. *)
Theorem semicolon_tail_removed (p r : string) :
  has_char ";" p = false ->
  isDateTimeString (p ++ ";" ++ r) = false ->
  (sanitizeSqlString (p ++ ";" ++ r) = p
   <-> all_chars trailing_statement_char r = true) /\
  (all_chars trailing_statement_char r = true ->
   convertValueToEscapedSqlLiteral (JStr (p ++ ";" ++ r))
   = Ok (LStr ("'" ++ replace "'" "''" p ++ "'"))).
Proof.
  intros Hp Hdt. split; [split |].
  - intros H. destruct (all_chars trailing_statement_char r) eqn:Hr;
      [reflexivity |].
    rewrite (sanitize_skip _ _ Hp Hr) in H.
    apply (f_equal String.length) in H.
    rewrite !length_append in H. simpl in H. lia.
  - now apply sanitize_cut.
  - intros Hr. rewrite (convert_plain_string _ Hdt). now rewrite sanitize_cut.
Qed.

Lemma semicolon_tail_removed_witness :
  has_char ";" "1" = false /\
  isDateTimeString ("1" ++ ";" ++ " SELECT 1; DROP TABLE treemap_tree;") = false /\
  all_chars trailing_statement_char " SELECT 1; DROP TABLE treemap_tree;" = true /\
  convertValueToEscapedSqlLiteral
    (JStr ("1" ++ ";" ++ " SELECT 1; DROP TABLE treemap_tree;"))
  = Ok (LStr "'1'").
Proof.
  split; [reflexivity |]. split; [reflexivity |]. split; [reflexivity |].
  apply (semicolon_tail_removed "1" " SELECT 1; DROP TABLE treemap_tree;");
    reflexivity.
Defined.

(** ** Datetimes *)

Lemma matches_length (format input : string) :
  Moment.matches format input = true ->
  String.length input = String.length format.
Proof.
  revert input. induction format as [|f format IH]; intros [|c input];
    simpl; try discriminate; [reflexivity |].
  intros H. apply andb_true_iff in H as [_ H]. now rewrite (IH _ H).
Qed.

Lemma bare_date_chars (s : string) :
  Spec.bare_date s = true -> all_chars Spec.date_char s = true.
Proof.
  unfold Spec.bare_date. cbn [date DATETIME_FORMATS]. intros H.
  pose proof (matches_length _ _ H) as L.
  do 10 (destruct s as [|? s]; [simpl in L; discriminate L |]).
  destruct s; [| simpl in L; discriminate L]. clear L. revert H.
  cbn [Moment.matches]. unfold Moment.matches_char. simpl.
  rewrite !andb_true_iff. unfold Spec.date_char.
  intros H. decompose [and] H. clear H.
  repeat match goal with
         | H : _ = true |- _ => rewrite H; clear H
         end.
  simpl. rewrite !orb_true_r. repeat split; reflexivity.
Qed.

Lemma date_char_plain (c : ascii) :
  Spec.date_char c = true ->
  negb (Ascii.eqb c ";") = true /\ negb (Ascii.eqb c "'") = true.
Proof.
  destruct c as [[] [] [] [] [] [] [] []]; vm_compute; intros H;
    first [discriminate H | split; reflexivity].
Qed.

Lemma bare_date_plain (s : string) :
  Spec.bare_date s = true ->
  has_char ";" s = false /\ has_char "'" s = false.
Proof.
  intros H. apply bare_date_chars in H.
  split; apply has_char_all_chars; revert H; apply all_chars_impl;
    intros c Hc; now apply date_char_plain in Hc.
Qed.

Lemma bare_date_no_datetime (s : string) :
  Spec.bare_date s = true -> isDateTimeString s = false.
Proof.
  intros H. destruct (isDateTimeString s) eqn:E; [| reflexivity].
  apply matches_length in H. apply matches_length in E.
  simpl in H, E. rewrite H in E. discriminate E.
Qed.

(** C3. A bare date, without a time component, is not recognized as a
    datetime: the converter makes the plain string literal of it, and a [MIN]
    predicate on [tree.created] compiles to a comparison with that literal,
    as for [2013-07-15]. *)
Theorem bare_date_is_plain_string (s : string) :
  Spec.bare_date s = true ->
  isDateTimeString s = false /\
  convertValueToEscapedSqlLiteral (JStr s) = Ok (LStr ("'" ++ s ++ "'")) /\
  filterToSql (JObj [("tree.created", JObj [("MIN", JStr s)])])
  = Ok ("(" ++ dquote ++ "treemap_tree" ++ dquote ++ "." ++ dquote
        ++ "created" ++ dquote ++ " >= '" ++ s ++ "')").
Proof.
  intros H.
  pose proof (bare_date_no_datetime _ H) as Hdt.
  destruct (bare_date_plain _ H) as [Hsemi Hquote].
  assert (Hconv : convertValueToEscapedSqlLiteral (JStr s)
                  = Ok (LStr ("'" ++ s ++ "'"))).
  { rewrite (convert_plain_string _ Hdt).
    now rewrite (sanitize_no_semicolon _ Hsemi), (replace_no_quote _ Hquote). }
  repeat split; [exact Hdt | exact Hconv |].
  cbv -[convertValueToEscapedSqlLiteral append].
  rewrite Hconv. simpl. rewrite !append_assoc. reflexivity.
Qed.

Lemma bare_date_is_plain_string_witness :
  Spec.bare_date "2013-07-15" = true /\
  isDateTimeString "2013-07-15" = false /\
  filterToSql (JObj [("tree.created", JObj [("MIN", JStr "2013-07-15")])])
  = Ok ("(" ++ dquote ++ "treemap_tree" ++ dquote ++ "." ++ dquote
        ++ "created" ++ dquote ++ " >= '2013-07-15')").
Proof.
  split; [reflexivity |].
  destruct (bare_date_is_plain_string "2013-07-15" eq_refl) as [H1 [_ H3]].
  split; [exact H1 | exact H3].
Defined.

(** ** The field and column resolver *)

Lemma split_length (sep : ascii) (s : string) :
  List.length (split sep s) = S (count_char sep s).
Proof.
  induction s as [|c s IH]; [reflexivity |].
  simpl. destruct (Ascii.eqb c sep); simpl.
  - now rewrite IH.
  - destruct (split sep s) as [|part parts]; simpl in *; [discriminate IH | exact IH].
Qed.

Lemma split_no_sep (sep : ascii) (s : string) :
  has_char sep s = false -> split sep s = [s].
Proof.
  induction s as [|c s IH]; [reflexivity |].
  simpl. intros H. apply orb_false_iff in H as [Hc Hs].
  now rewrite Hc, (IH Hs).
Qed.

Lemma split_at_sep (sep : ascii) (a b : string) :
  has_char sep a = false ->
  split sep (a ++ String sep b) = a :: split sep b.
Proof.
  induction a as [|c a IH]; simpl.
  - intros _. now rewrite Ascii.eqb_refl.
  - intros H. apply orb_false_iff in H as [Hc Ha].
    now rewrite Hc, (IH Ha).
Qed.

Lemma arity_message_not_model_message (fieldName model0 : string) :
  model_message model0 <> arity_message fieldName.
Proof. unfold model_message, arity_message. simpl. discriminate. Qed.

(** A name of the form [model.column], with a whitelisted model and one dot,
    resolves to the quoted table and the quoted, sanitized column. *)
Lemma fieldNameToColumnName_whitelisted (model column : string) :
  Spec.whitelisted model ->
  has_char "." column = false ->
  fieldNameToColumnName (model ++ "." ++ column)
  = Ok (dquote ++ "treemap_" ++ model ++ dquote ++ "." ++ dquote
        ++ sanitizeSqlString column ++ dquote).
Proof.
  intros Hm Hc. unfold fieldNameToColumnName.
  change (model ++ "." ++ column) with (model ++ String "." column).
  rewrite split_at_sep, (split_no_sep _ _ Hc).
  - destruct Hm as [-> | ->]; reflexivity.
  - destruct Hm as [-> | ->]; reflexivity.
Qed.

(** C4, as stated, fails: the name [plot.a.b] does not resolve with [a.b] as
    the column, it is cut at both dots and refused for its arity. *)
Lemma two_dots_refused :
  split "." "plot.a.b" = ["plot"; "a"; "b"] /\
  fieldNameToColumnName "plot.a.b" = Throw (Error (arity_message "plot.a.b")).
Proof. split; reflexivity. Qed.

(** C4, amended. The resolver cuts the name at every dot, into one part more
    than there are dots, and fails with the arity error exactly when the
    number of parts is not two: when the name holds no dot, or more than
    one. *)
Theorem arity_error_iff_not_one_dot (fieldName : string) :
  List.length (split "." fieldName) = S (count_char "." fieldName) /\
  (fieldNameToColumnName fieldName = Throw (Error (arity_message fieldName))
   <-> count_char "." fieldName <> 1).
Proof.
  split; [apply split_length |].
  pose proof (split_length "." fieldName) as L.
  unfold fieldNameToColumnName.
  destruct (split "." fieldName) as [|model0 [|column1 [|extra parts]]];
    simpl in L.
  - discriminate L.
  - split; [intros _; lia | reflexivity].
  - split; [| intros H; exfalso; apply H; lia].
    intros H. exfalso.
    destruct (get MODEL_MAPPING model0);
      first [ discriminate H
            | injection H as H;
              exact (arity_message_not_model_message _ _ H) ].
  - split; [intros _; lia | reflexivity].
Qed.

(** ** Predicate sets *)

(** C9. For a field name [model.column] with a whitelisted model, the empty
    predicate object compiles: validation accepts the empty key set, there is
    no filter object, and the clause of the field is [()]. *)
Theorem empty_predicate_compiles (model column : string) :
  Spec.whitelisted model ->
  has_char "." column = false ->
  validatePredicate (JObj []) = Ok tt /\
  predicateToFilterObjects (JObj []) = Ok [] /\
  fieldNameAndPredicateToSql (model ++ "." ++ column) (JObj []) = Ok "()" /\
  filterToSql (JObj [(model ++ "." ++ column, JObj [])]) = Ok "()".
Proof.
  intros Hm Hc.
  assert (H : fieldNameAndPredicateToSql (model ++ "." ++ column) (JObj [])
              = Ok "()").
  { unfold fieldNameAndPredicateToSql.
    rewrite (fieldNameToColumnName_whitelisted _ _ Hm Hc). reflexivity. }
  repeat split; try reflexivity; [exact H |].
  cbn [filterToSql]. unfold objectToSql. cbn [mapM Value.isObject negb].
  rewrite H. reflexivity.
Qed.

Lemma empty_predicate_compiles_witness :
  Spec.whitelisted "plot" /\
  has_char "." "address" = false /\
  filterToSql (JObj [("plot.address", JObj [])]) = Ok "()".
Proof.
  split; [left; reflexivity |]. split; [reflexivity |].
  apply (empty_predicate_compiles "plot" "address");
    [left; reflexivity | reflexivity].
Defined.

(** C5, as stated, fails on values that are objects or arrays: these are
    taken for the predicate itself, not for the operand of [IS]. With
    [{MIN: 1}] for the value the first filter compiles to a comparison and
    the second one raises; with the empty array the first filter compiles to
    [()] and the second one raises. *)
Lemma shorthand_differs_on_objects :
  filterToSql (JObj [("tree.height", JObj [("MIN", JNum 1)])])
  = Ok ("(" ++ dquote ++ "treemap_tree" ++ dquote ++ "." ++ dquote
        ++ "height" ++ dquote ++ " >= 1)") /\
  filterToSql (JObj [("tree.height", JObj [("IS", JObj [("MIN", JNum 1)])])])
  = Throw TypeError /\
  filterToSql (JObj [("tree.height", JArr [])]) = Ok "()" /\
  filterToSql (JObj [("tree.height", JObj [("IS", JArr [])])])
  = Throw TypeError.
Proof. repeat split; reflexivity. Qed.

(** C5, amended. For every whitelisted model, every field and every value
    that is neither an object nor an array, the shorthand filter and the
    filter with an explicit [IS] compile to the same result. *)
Theorem shorthand_is_explicit_IS (model field : string) (v : value) :
  Spec.whitelisted model ->
  Spec.scalar v ->
  filterToSql (JObj [(model ++ "." ++ field, v)])
  = filterToSql (JObj [(model ++ "." ++ field, JObj [("IS", v)])]).
Proof.
  intros _ Hv. unfold Spec.scalar in Hv.
  cbn [filterToSql]. unfold objectToSql. cbn [mapM Value.isObject negb].
  rewrite Hv. reflexivity.
Qed.

Lemma shorthand_is_explicit_IS_witness :
  Spec.whitelisted "plot" /\
  Spec.scalar (JStr "1234 Market St") /\
  filterToSql (JObj [("plot" ++ "." ++ "address", JStr "1234 Market St")])
  = filterToSql (JObj [("plot" ++ "." ++ "address",
                        JObj [("IS", JStr "1234 Market St")])]) /\
  filterToSql (JObj [("plot.address", JStr "1234 Market St")])
  = Ok ("(" ++ dquote ++ "treemap_plot" ++ dquote ++ "." ++ dquote
        ++ "address" ++ dquote ++ " = '1234 Market St')").
Proof.
  split; [left; reflexivity |]. split; [reflexivity |].
  split; [| reflexivity].
  apply (shorthand_is_explicit_IS "plot" "address" (JStr "1234 Market St"));
    [left; reflexivity | reflexivity].
Defined.

(** ** Combinators *)

Lemma join_single (sep x : string) : join sep [x] = x.
Proof. reflexivity. Qed.

(** The clause of a combinator, and of a predicate set with one field, is
    wrapped in parentheses. *)
Lemma one_clause_parenthesized (F : value) (C : string) :
  Spec.one_clause F -> filterToSql F = Ok C -> exists X, C = "(" ++ X ++ ")".
Proof.
  intros [HF | [fieldName [v ->]]].
  - destruct F as [| | | | |a|]; try discriminate HF. clear HF.
    cbn [filterToSql]. unfold arrayToSql.
    destruct a as [|a0 filters]; [discriminate |].
    destruct a0; try discriminate.
    destruct (String.eqb s "AND" || String.eqb s "OR"); [| discriminate].
    destruct (mapM filterToSql filters) as [statements|e]; [| discriminate].
    cbn [bind]. intros H. injection H as <-.
    now exists (join (" " ++ s ++ " ") statements).
  - cbn [filterToSql]. unfold objectToSql. cbn [mapM].
    unfold fieldNameAndPredicateToSql.
    destruct (fieldNameToColumnName fieldName) as [columnName|e];
      [| discriminate].
    cbn [bind].
    destruct (predicateToFilterObjects _) as [filters|e]; [| discriminate].
    cbn [bind]. rewrite join_single. intros H. injection H as <-.
    now eexists.
Qed.

(** C7. A combinator with exactly one inner filter, compiled to the clause
    [C], compiles to [C] in one more pair of parentheses; the clause of a
    combinator or of a one-field predicate set being parenthesized itself,
    the result is doubly parenthesized. *)
Theorem single_filter_combinator (op : string) (F : value) (C : string) :
  op = "AND" \/ op = "OR" ->
  filterToSql F = Ok C ->
  filterToSql (JArr [JStr op; F]) = Ok ("(" ++ C ++ ")") /\
  (Spec.one_clause F ->
   exists X, C = "(" ++ X ++ ")" /\
             filterToSql (JArr [JStr op; F]) = Ok ("((" ++ X ++ "))")).
Proof.
  intros Hop HF.
  assert (H : filterToSql (JArr [JStr op; F]) = Ok ("(" ++ C ++ ")")).
  { cbn [filterToSql]. unfold arrayToSql.
    replace (String.eqb op "AND" || String.eqb op "OR") with true
      by (destruct Hop as [-> | ->]; reflexivity).
    cbn [mapM]. rewrite HF. reflexivity. }
  split; [exact H |].
  intros H1. destruct (one_clause_parenthesized _ _ H1 HF) as [X ->].
  exists X. split; [reflexivity |].
  rewrite H. simpl. rewrite append_assoc. reflexivity.
Qed.

Lemma single_filter_combinator_witness :
  ("OR" = "AND" \/ "OR" = "OR") /\
  filterToSql (JObj [("tree.height", JObj [("MIN", JNum 1)])])
  = Ok ("(" ++ dquote ++ "treemap_tree" ++ dquote ++ "." ++ dquote
        ++ "height" ++ dquote ++ " >= 1)") /\
  filterToSql (JArr [JStr "OR";
                     JObj [("tree.height", JObj [("MIN", JNum 1)])]])
  = Ok ("(" ++ ("(" ++ dquote ++ "treemap_tree" ++ dquote ++ "." ++ dquote
                ++ "height" ++ dquote ++ " >= 1)") ++ ")").
Proof.
  split; [right; reflexivity |]. split; [reflexivity |].
  apply (single_filter_combinator "OR"
           (JObj [("tree.height", JObj [("MIN", JNum 1)])]));
    [right; reflexivity | reflexivity].
Defined.

(** ** The join-table set *)

(** C8. For a filter text that is not empty, the tree entry of the
    configuration is returned when [tree.] or [species.] occurs somewhere in
    the text, and the plot entry otherwise; with two different entries the
    tree entry is returned exactly in the first case. *)
Theorem tables_by_substring {TableSet : Type}
  (config : FilterStringToTables.tables TableSet) (s : string) :
  s <> "" ->
  (Spec.occurs "tree." s \/ Spec.occurs "species." s ->
   FilterStringToTables.exports config (text s)
   = Ok (FilterStringToTables.tree config)) /\
  (~ (Spec.occurs "tree." s \/ Spec.occurs "species." s) ->
   FilterStringToTables.exports config (text s)
   = Ok (FilterStringToTables.plot config)) /\
  (FilterStringToTables.tree config <> FilterStringToTables.plot config ->
   (FilterStringToTables.exports config (text s)
    = Ok (FilterStringToTables.tree config)
    <-> Spec.occurs "tree." s \/ Spec.occurs "species." s)).
Proof.
  intros Hs. unfold FilterStringToTables.exports. cbn [falsy].
  destruct (String.eqb_spec s "") as [E | _]; [contradiction |].
  rewrite <- !includes_occurs, <- orb_true_iff.
  destruct (includes "tree." s || includes "species." s).
  - split; [reflexivity |]. split; [intros H; exfalso; now apply H |].
    intros _. split; reflexivity.
  - split; [discriminate |]. split; [reflexivity |].
    intros Hne. split; [| discriminate].
    intros H. injection H as H. exfalso. now apply Hne.
Qed.

Lemma tables_by_substring_witness :
  "{ }" <> "" /\
  FilterStringToTables.exports
    {| FilterStringToTables.tree := "tree tables";
       FilterStringToTables.plot := "plot tables" |}
    (text "{ }")
  = Ok "plot tables".
Proof.
  split; [discriminate |].
  apply (tables_by_substring
           {| FilterStringToTables.tree := "tree tables";
              FilterStringToTables.plot := "plot tables" |} "{ }").
  - discriminate.
  - intros [H | H]; apply includes_occurs in H; discriminate H.
Defined.

(** C10. On [undefined], on [null] and on the empty string the table
    resolver throws, and so returns no table set, where the compiler returns
    the empty string. *)
Theorem falsy_filter_text {TableSet : Type}
  (config : FilterStringToTables.tables TableSet)
  (JSON_parse : string -> result value) (s : argument) :
  s = undefined \/ s = null \/ s = text "" ->
  FilterStringToTables.exports config s = Throw (Error FilterStringToTables.empty_filter_message) /\
  (forall t, FilterStringToTables.exports config s <> Ok t) /\
  FilterStringToSql.exports JSON_parse s = Ok "".
Proof.
  intros [-> | [-> | ->]]; repeat split; try reflexivity; discriminate.
Qed.

Lemma falsy_filter_text_witness :
  FilterStringToTables.exports
    {| FilterStringToTables.tree := "tree tables";
       FilterStringToTables.plot := "plot tables" |} (text "")
  = Throw (Error FilterStringToTables.empty_filter_message) /\
  FilterStringToSql.exports (fun _ => Throw SyntaxError) (text "") = Ok "".
Proof.
  destruct (falsy_filter_text
              {| FilterStringToTables.tree := "tree tables";
                 FilterStringToTables.plot := "plot tables" |}
              (fun _ => Throw SyntaxError) (text "")
              (or_intror (or_intror eq_refl))) as [H1 [_ H3]].
  split; [exact H1 | exact H3].
Defined.

(** ** The predicate validator *)

Lemma each_ok_iff {A : Type} (f : A -> result unit) (l : list A) :
  each f l = Ok tt <-> forall x, In x l -> f x = Ok tt.
Proof.
  induction l as [|x l IH]; simpl.
  - split; [intros _ y [] | reflexivity].
  - destruct (f x) as [[]|e] eqn:E; simpl.
    + rewrite IH. split.
      * intros H y [<- | Hy]; [exact E | now apply H].
      * intros H y Hy. apply H. now right.
    + split; [discriminate |]. intros H.
      specialize (H x (or_introl eq_refl)). rewrite E in H. discriminate H.
Qed.

Lemma assoc_none {A : Type} (key : string) (entries : list (string * A)) :
  assoc key entries = None <-> ~ In key (map fst entries).
Proof.
  induction entries as [|[k a] entries IH]; simpl; [tauto |].
  destruct (String.eqb_spec k key) as [-> | Hne].
  - split; [discriminate | intros H; exfalso; apply H; now left].
  - rewrite IH. tauto.
Qed.

Lemma contains_In (l : list string) (x : string) :
  contains l x = true <-> In x l.
Proof.
  unfold contains. rewrite existsb_exists. split.
  - intros [y [Hy E]]. apply String.eqb_eq in E. now subst.
  - intros H. exists x. split; [exact H | apply String.eqb_refl].
Qed.

(** The two tables hold what the specification names: the supported keys
    and the whitelisted models. *)
Lemma supported_keys_table : Spec.supported_keys = map fst PREDICATE_TYPES.
Proof. reflexivity. Qed.

Lemma whitelisted_table (model : string) :
  Spec.whitelisted model <-> In model (map fst MODEL_MAPPING).
Proof. unfold Spec.whitelisted. simpl. intuition congruence. Qed.

(** A supported key is an own key of [PREDICATE_TYPES], and its
    [combinesWith] list holds the keys it combines with. *)
Lemma get_supported (k : string) :
  In k Spec.supported_keys ->
  exists t, get PREDICATE_TYPES k = Own t /\
            forall k2, In k2 (combinesWith t) <-> Spec.combinable k k2.
Proof.
  unfold Spec.combinable. simpl.
  intros [<- | [<- | [<- | [<- | [<- | []]]]]];
    (eexists; split; [reflexivity |]); simpl; intros k2;
    split; intros H; intuition (try discriminate; subst; auto).
Qed.

Lemma get_own_supported (k : string) (t : predicate_type) :
  get PREDICATE_TYPES k = Own t -> In k Spec.supported_keys.
Proof.
  unfold get. destruct (assoc k PREDICATE_TYPES) eqn:E.
  - intros _. destruct (in_dec string_dec k Spec.supported_keys) as [H | H];
      [exact H |].
    apply (assoc_none k PREDICATE_TYPES) in H. congruence.
  - destruct (assoc k Object_prototype); discriminate.
Qed.

(** A key that is neither supported nor inherited is unknown to
    [PREDICATE_TYPES]. *)
Lemma get_unknown (k : string) :
  ~ In k Spec.supported_keys -> ~ Spec.inherited k ->
  get PREDICATE_TYPES k = Undefined.
Proof.
  intros Hs Hi. unfold get.
  apply (assoc_none k PREDICATE_TYPES) in Hs. rewrite Hs.
  apply assoc_none in Hi. now rewrite Hi.
Qed.

Lemma get_inherited (k text : string) :
  get PREDICATE_TYPES k = Inherited text -> Spec.inherited k.
Proof.
  unfold get, Spec.inherited. destruct (assoc k PREDICATE_TYPES); [discriminate |].
  destruct (assoc k Object_prototype) eqn:E; [| discriminate].
  intros _. destruct (in_dec string_dec k (map fst Object_prototype)) as [H | H];
    [exact H |].
  apply assoc_none in H. congruence.
Qed.

(** What the loop body decides for a supported key. *)
Lemma validateKey_supported (keys : list string) (k : string) :
  In k Spec.supported_keys ->
  (validateKey keys k = Ok tt
   <-> forall k2, In k2 keys -> k <> k2 -> Spec.combinable k k2).
Proof.
  intros Hk. destruct (get_supported k Hk) as [t [Hget Hcomb]].
  unfold validateKey. rewrite Hget.
  destruct (forallb _ keys) eqn:E.
  - split; [| reflexivity]. intros _ k2 Hk2 Hne.
    rewrite forallb_forall in E. specialize (E k2 Hk2).
    apply orb_true_iff in E as [E | E].
    + apply String.eqb_eq in E. contradiction.
    + apply Hcomb, contains_In, E.
  - split; [discriminate |]. intros H. exfalso.
    assert (E' : forallb (fun otherKey => String.eqb k otherKey
                           || contains (combinesWith t) otherKey) keys = true).
    { apply forallb_forall. intros k2 Hk2.
      destruct (String.eqb_spec k k2) as [_ | Hne]; [reflexivity |].
      apply contains_In, Hcomb, H; assumption. }
    congruence.
Qed.

(** The body fails on a first key that is supported and does not combine
    with some other key. *)
Lemma validateKey_combination (keys : list string) (k k2 : string)
  (t : predicate_type) :
  get PREDICATE_TYPES k = Own t ->
  In k2 keys -> k <> k2 -> ~ Spec.combinable k k2 ->
  validateKey keys k = Throw (Error (combination_message keys k t)).
Proof.
  intros Hget Hk2 Hne Hcomb.
  pose proof (get_own_supported _ _ Hget) as Hk.
  destruct (get_supported k Hk) as [t' [Hget' Hcomb']].
  assert (t' = t) by congruence. subst t'.
  unfold validateKey. rewrite Hget.
  destruct (forallb _ keys) eqn:E; [| reflexivity].
  exfalso. rewrite forallb_forall in E. specialize (E k2 Hk2).
  apply orb_true_iff in E as [E | E].
  - apply String.eqb_eq in E. contradiction.
  - apply Hcomb, Hcomb', contains_In, E.
Qed.

Lemma validatePredicate_object (o : list (string * value)) :
  validatePredicate (JObj o) = each (validateKey (map fst o)) (map fst o).
Proof. reflexivity. Qed.

Lemma validate_ok_iff (o : list (string * value)) :
  (forall k, In k (map fst o) -> ~ Spec.inherited k) ->
  (validatePredicate (JObj o) = Ok tt <-> Spec.valid_keys (map fst o)).
Proof.
  intros Hin. rewrite validatePredicate_object, each_ok_iff.
  unfold Spec.valid_keys. split.
  - intros H.
    assert (Hs : forall k, In k (map fst o) -> In k Spec.supported_keys).
    { intros k Hk. specialize (H k Hk). unfold validateKey in H.
      destruct (get PREDICATE_TYPES k) as [t | text |] eqn:G.
      - exact (get_own_supported _ _ G).
      - exfalso. exact (Hin k Hk (get_inherited _ _ G)).
      - discriminate H. }
    split; [exact Hs |].
    intros k1 k2 Hk1 Hk2 Hne.
    exact (proj1 (validateKey_supported _ k1 (Hs k1 Hk1)) (H k1 Hk1) k2 Hk2 Hne).
  - intros [Hs Hc] k Hk.
    apply (validateKey_supported _ k (Hs k Hk)).
    intros k2 Hk2 Hne. now apply Hc.
Qed.

Lemma validate_first_unknown (o : list (string * value)) (k : string)
  (rest : list string) :
  map fst o = k :: rest ->
  get PREDICATE_TYPES k = Undefined ->
  validatePredicate (JObj o) = Throw (Error (unsupported_key_message k)).
Proof.
  intros Hkeys Hget. rewrite validatePredicate_object, Hkeys.
  cbn [each]. unfold validateKey at 1. now rewrite Hget.
Qed.

Lemma validate_first_combination (o : list (string * value)) (k k2 : string)
  (rest : list string) (t : predicate_type) :
  map fst o = k :: rest ->
  get PREDICATE_TYPES k = Own t ->
  In k2 (map fst o) -> k <> k2 -> ~ Spec.combinable k k2 ->
  validatePredicate (JObj o)
  = Throw (Error (combination_message (map fst o) k t)).
Proof.
  intros Hkeys Hget Hk2 Hne Hcomb. rewrite validatePredicate_object.
  rewrite Hkeys at 2. cbn [each].
  now rewrite (validateKey_combination _ k k2 t Hget Hk2 Hne Hcomb).
Qed.

Lemma combinable_supported (k1 k2 : string) :
  Spec.combinable k1 k2 -> In k2 Spec.supported_keys.
Proof. intros [[_ ->] | [_ ->]]; simpl; tauto. Qed.

(** C6, as stated, fails: an unknown key that follows a supported key is
    not reported with the list of the supported keys. The loop stops at the
    supported key, which does not combine with it, and the error is the
    combination error of that key. *)
Lemma unknown_key_after_supported_key :
  validatePredicate (JObj [("IS", JNum 1); ("WILLBE", JNum 2)])
  = Throw (Error "A predicate with keys IS,WILLBE is not valid because the predicate key IS can only be combined with the following keys: ") /\
  unsupported_key_message "WILLBE"
  = "Predicates support the following keys: IS,IN,LIKE,MIN,MAX not WILLBE" /\
  validatePredicate (JObj [("IS", JNum 1); ("WILLBE", JNum 2)])
  <> Throw (Error (unsupported_key_message "WILLBE")).
Proof. repeat split; try reflexivity. discriminate. Qed.

(** A key that [PREDICATE_TYPES] inherits from [Object.prototype] passes the
    test for unknown keys: alone in a predicate it is accepted by the
    validator, and the compilation ends in a [TypeError] later. *)
Lemma inherited_key_accepted :
  ~ In "constructor" Spec.supported_keys /\
  validatePredicate (JObj [("constructor", JNum 1)]) = Ok tt /\
  filterToSql (JObj [("tree.height", JObj [("constructor", JNum 1)])])
  = Throw TypeError.
Proof.
  repeat split; try reflexivity.
  simpl. intuition discriminate.
Qed.

(** C6, amended. For a predicate object none of whose keys is a name
    inherited from [Object.prototype]:
    - validation succeeds exactly when every key is supported and any two
      distinct keys combine, [MIN] with [MAX] being the only such pair;
    - a predicate with an unknown key fails; the error lists the supported
      keys when the unknown key is the first key, and is the combination
      error of the first key when that one is supported;
    - a predicate with both [IN] and [IS] fails, whatever the values; the
      error is the combination error of the first key when that one is
      supported, as it is when [IN] and [IS] are the only keys. *)
Theorem predicate_validation (o : list (string * value)) :
  (forall k, In k (map fst o) -> ~ Spec.inherited k) ->
  (validatePredicate (JObj o) = Ok tt <-> Spec.valid_keys (map fst o)) /\
  (forall u, In u (map fst o) -> ~ In u Spec.supported_keys ->
     validatePredicate (JObj o) <> Ok tt /\
     forall k rest, map fst o = k :: rest ->
       (~ In k Spec.supported_keys ->
        validatePredicate (JObj o)
        = Throw (Error (unsupported_key_message k))) /\
       (In k Spec.supported_keys ->
        exists t, get PREDICATE_TYPES k = Own t /\
                  validatePredicate (JObj o)
                  = Throw (Error (combination_message (map fst o) k t)))) /\
  (In "IN" (map fst o) -> In "IS" (map fst o) ->
     validatePredicate (JObj o) <> Ok tt /\
     forall k rest, map fst o = k :: rest ->
       In k Spec.supported_keys ->
       exists t, get PREDICATE_TYPES k = Own t /\
                 validatePredicate (JObj o)
                 = Throw (Error (combination_message (map fst o) k t))).
Proof.
  intros Hin. pose proof (validate_ok_iff o Hin) as Hiff.
  split; [exact Hiff |]. split.
  - intros u Hu Hus. split.
    + intros H. apply Hiff in H. destruct H as [Hs _]. exact (Hus (Hs u Hu)).
    + intros k rest Hkeys. split.
      * intros Hks. apply (validate_first_unknown o k rest Hkeys).
        apply get_unknown; [exact Hks |].
        apply Hin. rewrite Hkeys. now left.
      * intros Hks. destruct (get_supported k Hks) as [t [Hget _]].
        exists t. split; [exact Hget |].
        apply (validate_first_combination o k u rest t Hkeys Hget Hu).
        -- intros ->. contradiction.
        -- intros Hc. exact (Hus (combinable_supported _ _ Hc)).
  - intros HIN HIS. split.
    + intros H. apply Hiff in H. destruct H as [_ Hc].
      assert (Hne : "IN" <> "IS") by discriminate.
      destruct (Hc "IN" "IS" HIN HIS Hne) as [[E _] | [E _]]; discriminate E.
    + intros k rest Hkeys Hks. destruct (get_supported k Hks) as [t [Hget _]].
      exists t. split; [exact Hget |].
      destruct (string_dec k "IN") as [-> | Hne].
      * apply (validate_first_combination o "IN" "IS" rest t Hkeys Hget HIS).
        -- discriminate.
        -- intros [[E _] | [E _]]; discriminate E.
      * apply (validate_first_combination o k "IN" rest t Hkeys Hget HIN Hne).
        intros [[_ E] | [_ E]]; discriminate E.
Qed.

Lemma predicate_validation_witness :
  (forall k, In k (map fst [("MIN", JNum 1); ("MAX", JNum 2)]) ->
             ~ Spec.inherited k) /\
  validatePredicate (JObj [("MIN", JNum 1); ("MAX", JNum 2)]) = Ok tt /\
  Spec.valid_keys ["MIN"; "MAX"].
Proof.
  assert (H : forall k, In k (map fst [("MIN", JNum 1); ("MAX", JNum 2)]) ->
                        ~ Spec.inherited k).
  { unfold Spec.inherited. simpl.
    intros k [<- | [<- | []]] H; intuition discriminate. }
  split; [exact H |]. split; [reflexivity |].
  apply (proj1 (predicate_validation [("MIN", JNum 1); ("MAX", JNum 2)] H)).
  reflexivity.
Defined.

(** * Further properties *)

(** ** The sanitizer *)

Lemma all_chars_sanitize (s : string) :
  all_chars trailing_statement_char (sanitizeSqlString s)
  = all_chars trailing_statement_char s.
Proof.
  induction s as [|c s IH]; [reflexivity |].
  cbn [sanitizeSqlString].
  destruct (Ascii.eqb_spec c ";") as [-> | Hne]; cbn [andb].
  - destruct (all_chars trailing_statement_char s) eqn:E.
    + cbn [all_chars]. now rewrite E.
    + cbn [all_chars]. now rewrite IH, E.
  - cbn [all_chars]. now rewrite IH.
Qed.

(** X1. The sanitizer returns a prefix of its input, and what it removes is
    nothing, or a [;] followed up to the end by word characters, white space
    and [;] only. *)
Theorem sanitize_removes_trailing_statement (s : string) :
  exists removed,
    s = sanitizeSqlString s ++ removed /\
    (removed = "" \/
     exists r, removed = ";" ++ r /\
               all_chars trailing_statement_char r = true).
Proof.
  induction s as [|c s [removed [Hs Hr]]].
  - exists "". split; [reflexivity | now left].
  - cbn [sanitizeSqlString].
    destruct (Ascii.eqb_spec c ";") as [-> | Hne]; cbn [andb].
    + destruct (all_chars trailing_statement_char s) eqn:E.
      * exists (String ";" s). split; [reflexivity |].
        right. now exists s.
      * exists removed. split; [| exact Hr].
        simpl. now rewrite <- Hs.
    + exists removed. split; [| exact Hr].
      simpl. now rewrite <- Hs.
Qed.

(** X2. The sanitizer leaves no trailing statement behind: its result never
    has a [;] followed only by word characters, white space and [;], and so
    sanitizing twice changes nothing more. *)
Theorem sanitize_idempotent (s : string) :
  sanitizeSqlString (sanitizeSqlString s) = sanitizeSqlString s /\
  (forall p r, sanitizeSqlString s = p ++ ";" ++ r ->
               all_chars trailing_statement_char r = false).
Proof.
  assert (Hidem : forall t, sanitizeSqlString (sanitizeSqlString t)
                            = sanitizeSqlString t).
  { induction t as [|c t IH]; [reflexivity |].
    cbn [sanitizeSqlString].
    destruct (Ascii.eqb c ";" && all_chars trailing_statement_char t) eqn:E;
      [reflexivity |].
    cbn [sanitizeSqlString]. rewrite all_chars_sanitize, E. now rewrite IH. }
  split; [apply Hidem |].
  intros p r H.
  destruct (all_chars trailing_statement_char r) eqn:Hr; [| reflexivity].
  exfalso. pose proof (Hidem s) as Hfix. rewrite H in Hfix.
  assert (Hcut : exists p', sanitizeSqlString (p ++ ";" ++ r) = p'
                            /\ String.length p' <= String.length p).
  { clear H Hfix. induction p as [|c p [p' [Hp' Hlen]]].
    - exists "". simpl. rewrite Hr. split; [reflexivity | simpl; lia].
    - cbn [append sanitizeSqlString].
      destruct (Ascii.eqb c ";" && _).
      + exists "". split; [reflexivity | simpl; lia].
      + exists (String c p'). simpl in Hp'. rewrite Hp'.
        split; [reflexivity | simpl; lia]. }
  destruct Hcut as [p' [Hp' Hlen]]. rewrite Hp' in Hfix.
  apply (f_equal String.length) in Hfix.
  rewrite !length_append in Hfix. simpl in Hfix. lia.
Qed.

(** X3. The positive side of the quoting: a string value that is no
    datetime and keeps at most one single quote after sanitizing compiles to
    the quote-wrapped text with every single quote doubled. *)
Theorem one_quote_is_escaped (s : string) :
  isDateTimeString s = false ->
  count_char "'" (sanitizeSqlString s) <= 1 ->
  convertValueToEscapedSqlLiteral (JStr s)
  = Ok (LStr ("'" ++ Spec.double_quotes (sanitizeSqlString s) ++ "'")).
Proof.
  intros Hdt Hcount. rewrite (convert_plain_string _ Hdt).
  now rewrite (replace_is_double_quotes _ Hcount).
Qed.

Lemma one_quote_is_escaped_witness :
  isDateTimeString "O'Hara St; DROP TABLE x" = false /\
  count_char "'" (sanitizeSqlString "O'Hara St; DROP TABLE x") <= 1 /\
  convertValueToEscapedSqlLiteral (JStr "O'Hara St; DROP TABLE x")
  = Ok (LStr "'O''Hara St'").
Proof.
  split; [reflexivity |]. split; [simpl; lia |].
  apply (one_quote_is_escaped "O'Hara St; DROP TABLE x");
    [reflexivity | simpl; lia].
Defined.

(** X4. A string whose last character is outside the class of the sanitizer
    (a dash, a parenthesis, a quote) passes through it unchanged, however
    many [;] it holds. *)
Theorem sanitize_foreign_tail (s : string) (c : ascii) :
  trailing_statement_char c = false ->
  sanitizeSqlString (s ++ String c "") = s ++ String c "".
Proof.
  intros Hc.
  assert (Hall : forall t,
             all_chars trailing_statement_char (t ++ String c "") = false).
  { induction t as [|x t IH]; simpl.
    - now rewrite Hc.
    - rewrite IH. apply andb_false_r. }
  induction s as [|x s IH]; simpl.
  - unfold trailing_statement_char in Hc.
    apply orb_false_iff in Hc as [_ Hc]. now rewrite Hc.
  - rewrite Hall, andb_false_r. now rewrite IH.
Qed.

Lemma sanitize_foreign_tail_witness :
  trailing_statement_char ")" = false /\
  sanitizeSqlString ("1; DELETE FROM t; SELECT (1" ++ String ")" "")
  = "1; DELETE FROM t; SELECT (1)".
Proof.
  split; [reflexivity |].
  apply (sanitize_foreign_tail "1; DELETE FROM t; SELECT (1" ")").
  reflexivity.
Defined.

(** ** The resolver *)

Lemma trailing_statement_char_no_dot (c : ascii) :
  trailing_statement_char c = true -> negb (Ascii.eqb c ".") = true.
Proof.
  destruct c as [[] [] [] [] [] [] [] []]; vm_compute; intros H;
    first [discriminate H | reflexivity].
Qed.

Lemma get_model_unknown (model : string) :
  ~ Spec.whitelisted model -> ~ Spec.inherited model ->
  get MODEL_MAPPING model = Undefined.
Proof.
  intros Hw Hi. unfold get.
  rewrite whitelisted_table in Hw. apply assoc_none in Hw. rewrite Hw.
  apply assoc_none in Hi. now rewrite Hi.
Qed.

(** X5. A statement appended to the column of a field name is removed: with
    a whitelisted model, a column without dot and without [;], and a tail of
    word characters, white space and [;], the name [model.column;tail]
    resolves to the same quoted reference as [model.column]. *)
Theorem column_name_sanitized (model column tail : string) :
  Spec.whitelisted model ->
  has_char "." column = false ->
  has_char ";" column = false ->
  all_chars trailing_statement_char tail = true ->
  fieldNameToColumnName (model ++ "." ++ column ++ ";" ++ tail)
  = Ok (dquote ++ "treemap_" ++ model ++ dquote ++ "." ++ dquote ++ column
        ++ dquote) /\
  fieldNameToColumnName (model ++ "." ++ column ++ ";" ++ tail)
  = fieldNameToColumnName (model ++ "." ++ column).
Proof.
  intros Hm Hdot Hsemi Htail.
  assert (Hdot' : has_char "." (column ++ ";" ++ tail) = false).
  { rewrite has_char_append, Hdot. simpl.
    apply has_char_all_chars. revert Htail. apply all_chars_impl.
    apply trailing_statement_char_no_dot. }
  rewrite (fieldNameToColumnName_whitelisted _ _ Hm Hdot').
  rewrite (fieldNameToColumnName_whitelisted _ _ Hm Hdot).
  rewrite (sanitize_cut _ _ Hsemi Htail), (sanitize_no_semicolon _ Hsemi).
  split; reflexivity.
Qed.

Lemma column_name_sanitized_witness :
  Spec.whitelisted "tree" /\
  has_char "." "height" = false /\
  has_char ";" "height" = false /\
  all_chars trailing_statement_char " DROP TABLE treemap_tree;" = true /\
  fieldNameToColumnName
    ("tree" ++ "." ++ "height" ++ ";" ++ " DROP TABLE treemap_tree;")
  = Ok (quoted "treemap_tree" ++ "." ++ quoted "height").
Proof.
  split; [right; reflexivity |].
  split; [reflexivity |]. split; [reflexivity |]. split; [reflexivity |].
  apply (column_name_sanitized "tree" "height" " DROP TABLE treemap_tree;");
    [right; reflexivity | reflexivity | reflexivity | reflexivity].
Defined.

(** X6. A model that is neither in [MODEL_MAPPING] nor a name inherited
    from [Object.prototype] is refused, whatever the column: with the error
    that lists the models when the column holds no dot, with the arity error
    otherwise. So [species], which the table resolver looks for, is no model
    of the compiler. *)
Theorem unknown_model_refused (model column : string) :
  has_char "." model = false ->
  ~ Spec.whitelisted model ->
  ~ Spec.inherited model ->
  (has_char "." column = false ->
   fieldNameToColumnName (model ++ "." ++ column)
   = Throw (Error (model_message model))) /\
  (has_char "." column = true ->
   fieldNameToColumnName (model ++ "." ++ column)
   = Throw (Error (arity_message (model ++ "." ++ column)))).
Proof.
  intros Hm Hw Hi.
  pose proof (get_model_unknown _ Hw Hi) as Hget.
  change (model ++ "." ++ column) with (model ++ String "." column).
  unfold fieldNameToColumnName. rewrite (split_at_sep _ _ _ Hm). split.
  - intros Hc. rewrite (split_no_sep _ _ Hc). now rewrite Hget.
  - intros Hc. pose proof (split_length "." column) as L.
    destruct (split "." column) as [|part [|part' parts]]; simpl in L.
    + discriminate L.
    + exfalso. assert (H0 : count_char "." column = 0) by lia.
      apply count_char_has_char in H0. congruence.
    + reflexivity.
Qed.

Lemma unknown_model_refused_witness :
  has_char "." "species" = false /\
  ~ Spec.whitelisted "species" /\
  ~ Spec.inherited "species" /\
  fieldNameToColumnName ("species" ++ "." ++ "id")
  = Throw (Error "The model name must be one of the following: plot, tree. Not species").
Proof.
  assert (Hw : ~ Spec.whitelisted "species")
    by (intros [H | H]; discriminate H).
  assert (Hi : ~ Spec.inherited "species")
    by (unfold Spec.inherited; simpl; intuition discriminate).
  split; [reflexivity |]. split; [exact Hw |]. split; [exact Hi |].
  apply (unknown_model_refused "species" "id" eq_refl Hw Hi). reflexivity.
Defined.

(** X7. The whitelist test reads [MODEL_MAPPING[model]] and takes any
    truthy answer: a model that is the name of a member of
    [Object.prototype] passes it, and the name resolves, with the text of
    that member in the place of a table. *)
Theorem inherited_model_resolves (model column : string) :
  Spec.inherited model ->
  has_char "." column = false ->
  ~ Spec.whitelisted model /\
  exists text,
    get MODEL_MAPPING model = Inherited text /\
    fieldNameToColumnName (model ++ "." ++ column)
    = Ok (dquote ++ text ++ dquote ++ "." ++ dquote
          ++ sanitizeSqlString column ++ dquote).
Proof.
  intros Hi Hc.
  change (model ++ "." ++ column) with (model ++ String "." column).
  unfold fieldNameToColumnName, Spec.inherited in *. simpl in Hi.
  repeat (destruct Hi as [<- | Hi]);
    try (split; [ intros [H | H]; discriminate H
                | eexists; split; [reflexivity |];
                  rewrite split_at_sep by reflexivity;
                  rewrite (split_no_sep _ _ Hc); reflexivity ]).
  contradiction.
Qed.

Lemma inherited_model_resolves_witness :
  Spec.inherited "constructor" /\
  has_char "." "id" = false /\
  exists text,
    fieldNameToColumnName ("constructor" ++ "." ++ "id")
    = Ok (dquote ++ text ++ dquote ++ "." ++ dquote ++ "id" ++ dquote).
Proof.
  assert (Hi : Spec.inherited "constructor") by (left; reflexivity).
  split; [exact Hi |]. split; [reflexivity |].
  destruct (inherited_model_resolves "constructor" "id" Hi eq_refl)
    as [_ [text [_ H]]].
  exists text. exact H.
Defined.

(** ** Traversals *)

Lemma mapM_Forall2 {A B : Type} (f : A -> result B) (l : list A)
  (ys : list B) :
  mapM f l = Ok ys <-> Forall2 (fun x y => f x = Ok y) l ys.
Proof.
  revert ys. induction l as [|x l IH]; intros ys; simpl.
  - split.
    + intros H. injection H as <-. constructor.
    + intros H. inversion H. reflexivity.
  - destruct (f x) as [y|e] eqn:E; simpl.
    + destruct (mapM f l) as [ys'|e'] eqn:E'; simpl.
      * split.
        -- intros H. injection H as <-. constructor; [exact E |].
           now apply IH.
        -- intros H. inversion H as [|? y0 ? ys0 Hy Hys]; subst.
           apply IH in Hys. congruence.
      * split; [discriminate |].
        intros H. inversion H as [|? y0 ? ys0 Hy Hys]; subst.
        apply IH in Hys. discriminate Hys.
    + split; [discriminate |].
      intros H. inversion H as [|? y0 ? ys0 Hy Hys]; subst. congruence.
Qed.



(** The first exception, from left to right, is the one that escapes. *)
Lemma mapM_first_throw {A B : Type} (f : A -> result B) (l1 l2 : list A)
  (ys1 : list B) (x : A) (e : exn) :
  mapM f l1 = Ok ys1 -> f x = Throw e ->
  mapM f (l1 ++ x :: l2)%list = Throw e.
Proof.
  revert ys1. induction l1 as [|a l1 IH]; intros ys1; simpl.
  - intros _ Hx. now rewrite Hx.
  - destruct (f a) as [y|e'] eqn:E; simpl; [| discriminate].
    destruct (mapM f l1) as [ys'|e'] eqn:E'; simpl; [| discriminate].
    intros _ Hx. now rewrite (IH ys' eq_refl Hx).
Qed.



(** ** The converters *)





(** ** Clauses of one field *)

Lemma field_clause (model column : string) (predicate : value)
  (filters : list filter_object) :
  Spec.whitelisted model ->
  has_char "." column = false ->
  Value.isObject predicate = true ->
  predicateToFilterObjects predicate = Ok filters ->
  filterToSql (JObj [(model ++ "." ++ column, predicate)])
  = Ok ("(" ++ join " AND "
                 (map (fun f => Spec.comparison (Spec.column model column)
                                  (matcher_toString (fo_matcher f))
                                  (literal_toString (fo_value f))) filters)
        ++ ")").
Proof.
  intros Hm Hc Hobj Hf.
  cbn [filterToSql]. unfold objectToSql. cbn [mapM]. rewrite Hobj. cbn [negb].
  unfold fieldNameAndPredicateToSql.
  rewrite (fieldNameToColumnName_whitelisted _ _ Hm Hc). cbn [bind].
  rewrite Hf. reflexivity.
Qed.

Lemma field_clause_throw (model column : string) (predicate : value)
  (e : exn) :
  Spec.whitelisted model ->
  has_char "." column = false ->
  Value.isObject predicate = true ->
  predicateToFilterObjects predicate = Throw e ->
  filterToSql (JObj [(model ++ "." ++ column, predicate)]) = Throw e.
Proof.
  intros Hm Hc Hobj Hf.
  cbn [filterToSql]. unfold objectToSql. cbn [mapM]. rewrite Hobj. cbn [negb].
  unfold fieldNameAndPredicateToSql.
  rewrite (fieldNameToColumnName_whitelisted _ _ Hm Hc). cbn [bind].
  rewrite Hf. reflexivity.
Qed.



(** X10. An [IN] predicate whose operand is neither an array nor an object
    fails with the error of the array converter. *)
Theorem in_requires_array (model column : string) (v : value) :
  Spec.whitelisted model ->
  has_char "." column = false ->
  Value.isObject v = false ->
  filterToSql (JObj [(model ++ "." ++ column, JObj [("IN", v)])])
  = Throw (Error "Non-array passed to convertArrayValueToEscapedSqlLiteral").
Proof.
  intros Hm Hc Hv.
  apply (field_clause_throw _ _ (JObj [("IN", v)]) _ Hm Hc eq_refl).
  destruct v; try discriminate Hv; reflexivity.
Qed.

Lemma in_requires_array_witness :
  Spec.whitelisted "plot" /\
  has_char "." "type" = false /\
  Value.isObject (JNum 5) = false /\
  filterToSql (JObj [("plot.type", JObj [("IN", JNum 5)])])
  = Throw (Error "Non-array passed to convertArrayValueToEscapedSqlLiteral").
Proof.
  split; [left; reflexivity |]. split; [reflexivity |].
  split; [reflexivity |].
  apply (in_requires_array "plot" "type" (JNum 5));
    [left; reflexivity | reflexivity | reflexivity].
Defined.

(** ** Predicates with one key *)

Lemma validate_single (k : string) (v : value) :
  In k Spec.supported_keys -> validatePredicate (JObj [(k, v)]) = Ok tt.
Proof.
  simpl. intros [<- | [<- | [<- | [<- | [<- | []]]]]]; reflexivity.
Qed.

Lemma single_predicate (k : string) (v : value) :
  In k Spec.supported_keys ->
  predicateToFilterObjects (JObj [(k, v)])
  = (fo <- predicateValueAndTypeToFilterObject v k ;; Ok [fo]).
Proof.
  intros Hk. unfold predicateToFilterObjects.
  rewrite (validate_single _ _ Hk). cbn [bind mapM fst snd].
  destruct (predicateValueAndTypeToFilterObject v k); reflexivity.
Qed.

(** The filter object of a key whose operand is an object. *)
Lemma object_operand (k : string) (t : predicate_type)
  (o : list (string * value)) :
  get PREDICATE_TYPES k = Own t ->
  predicateValueAndTypeToFilterObject (JObj o) k
  = (v <- valueConverter t (Value.prop "value" (JObj o)) ;;
     Ok {| fo_matcher :=
             if Value.truthy (Value.prop "EXCLUSIVE" (JObj o))
             then exclusiveMatcher t else Some (matcher t);
           fo_value := v |}).
Proof.
  intros Hget. unfold predicateValueAndTypeToFilterObject. rewrite Hget.
  reflexivity.
Qed.





(** X13. An object operand is never compared as such: without a [value]
    entry the keys [IS], [LIKE], [MIN] and [MAX] end in a [TypeError], and
    [IN] in the error of the array converter. *)
Theorem object_operand_without_value (model column k : string)
  (o : list (string * value)) :
  Spec.whitelisted model ->
  has_char "." column = false ->
  In k Spec.supported_keys ->
  assoc "value" o = None ->
  filterToSql (JObj [(model ++ "." ++ column, JObj [(k, JObj o)])])
  = Throw (if String.eqb k "IN"
           then Error "Non-array passed to convertArrayValueToEscapedSqlLiteral"
           else TypeError).
Proof.
  intros Hm Hc Hk Hv.
  apply (field_clause_throw _ _ (JObj [(k, JObj o)]) _ Hm Hc eq_refl).
  rewrite (single_predicate _ _ Hk).
  destruct (get_supported k Hk) as [t [Hget _]].
  rewrite (object_operand k t o Hget).
  unfold Value.prop at 1. rewrite Hv.
  simpl in Hk.
  destruct Hk as [<- | [<- | [<- | [<- | [<- | []]]]]];
    injection Hget as <-; reflexivity.
Qed.

Lemma object_operand_without_value_witness :
  Spec.whitelisted "tree" /\
  has_char "." "height" = false /\
  filterToSql
    (JObj [("tree.height", JObj [("MIN", JObj [("EXCLUSIVE", JBool true)])])])
  = Throw TypeError.
Proof.
  split; [right; reflexivity |]. split; [reflexivity |].
  apply (object_operand_without_value "tree" "height" "MIN"
           [("EXCLUSIVE", JBool true)]);
    [right; reflexivity | reflexivity | simpl; tauto | reflexivity].
Defined.

(** ** Predicates with several keys, and arrays taken for predicates *)



(** X15. A predicate that passes validation has at most two different keys,
    and two only as [MIN] with [MAX]. *)
Theorem valid_predicate_has_at_most_two_keys (o : list (string * value)) :
  validatePredicate (JObj o) = Ok tt ->
  NoDup (map fst o) ->
  map fst o = [] \/ (exists k, map fst o = [k]) \/
  map fst o = ["MIN"; "MAX"] \/ map fst o = ["MAX"; "MIN"].
Proof.
  rewrite validatePredicate_object, each_ok_iff.
  destruct (map fst o) as [|k1 [|k2 rest]]; [tauto | eauto |].
  intros H Hnd. right. right.
  inversion Hnd as [|? ? Hk1 Hnd']; subst.
  inversion Hnd' as [|? ? Hk2 _]; subst.
  assert (H12 : k1 <> k2) by (intros ->; apply Hk1; now left).
  pose proof (H k1 (or_introl eq_refl)) as H1.
  assert (Hs : In k1 Spec.supported_keys).
  { unfold validateKey in H1.
    destruct (get PREDICATE_TYPES k1) as [t | text |] eqn:G.
    - exact (get_own_supported _ _ G).
    - exfalso. cbn [forallb] in H1.
      destruct (String.eqb_spec k1 k2) as [E | _]; [contradiction |].
      rewrite String.eqb_refl in H1. discriminate H1.
    - discriminate H1. }
  pose proof (proj1 (validateKey_supported _ k1 Hs) H1) as Hc.
  assert (Hrest : rest = []).
  { destruct rest as [|k3 rest]; [reflexivity |]. exfalso.
    assert (H13 : k1 <> k3) by (intros ->; apply Hk1; right; now left).
    assert (H23 : k2 <> k3) by (intros ->; apply Hk2; now left).
    pose proof (Hc k2 (or_intror (or_introl eq_refl)) H12) as C2.
    pose proof (Hc k3 (or_intror (or_intror (or_introl eq_refl))) H13) as C3.
    destruct C2 as [[E1 E2] | [E1 E2]], C3 as [[E3 E4] | [E3 E4]];
      congruence. }
  subst rest.
  destruct (Hc k2 (or_intror (or_introl eq_refl)) H12) as [[-> ->] | [-> ->]];
    tauto.
Qed.

Lemma valid_predicate_has_at_most_two_keys_witness :
  validatePredicate (JObj [("MAX", JNum 3); ("MIN", JNum 2)]) = Ok tt /\
  NoDup (map fst [("MAX", JNum 3); ("MIN", JNum 2)]) /\
  (map fst [("MAX", JNum 3); ("MIN", JNum 2)] = []
   \/ (exists k, map fst [("MAX", JNum 3); ("MIN", JNum 2)] = [k])
   \/ map fst [("MAX", JNum 3); ("MIN", JNum 2)] = ["MIN"; "MAX"]
   \/ map fst [("MAX", JNum 3); ("MIN", JNum 2)] = ["MAX"; "MIN"]).
Proof.
  assert (Hnd : NoDup (map fst [("MAX", JNum 3); ("MIN", JNum 2)])).
  { simpl. constructor; [| constructor; [| constructor]]; simpl;
      intuition discriminate. }
  split; [reflexivity |]. split; [exact Hnd |].
  apply (valid_predicate_has_at_most_two_keys
           [("MAX", JNum 3); ("MIN", JNum 2)] eq_refl Hnd).
Defined.

(** X16. An array in the place of a predicate is taken for a predicate
    with its indices for keys: with at least one element it is refused as
    the unsupported key [0], and the empty array compiles to the clause
    [()]. *)
Theorem array_as_predicate (model column : string) (x : value)
  (rest : list value) :
  Spec.whitelisted model ->
  has_char "." column = false ->
  filterToSql (JObj [(model ++ "." ++ column, JArr (x :: rest))])
  = Throw (Error (unsupported_key_message "0")) /\
  filterToSql (JObj [(model ++ "." ++ column, JArr [])]) = Ok "()".
Proof.
  intros Hm Hc. split.
  - apply (field_clause_throw _ _ (JArr (x :: rest)) _ Hm Hc eq_refl).
    unfold predicateToFilterObjects, validatePredicate.
    cbn [Value.isObject negb Value.keys List.length].
    unfold Value.indices. cbn [seq map each].
    change (number_toString (Z.of_nat 0)) with "0".
    unfold validateKey at 1.
    change (get PREDICATE_TYPES "0") with (@Undefined predicate_type).
    reflexivity.
  - rewrite (field_clause _ _ (JArr []) [] Hm Hc eq_refl eq_refl).
    reflexivity.
Qed.

Lemma array_as_predicate_witness :
  Spec.whitelisted "plot" /\
  has_char "." "type" = false /\
  filterToSql (JObj [("plot.type", JArr [JNum 1; JNum 2])])
  = Throw (Error "Predicates support the following keys: IS,IN,LIKE,MIN,MAX not 0").
Proof.
  split; [left; reflexivity |]. split; [reflexivity |].
  apply (array_as_predicate "plot" "type" (JNum 1) [JNum 2]);
    [left; reflexivity | reflexivity].
Defined.

(** ** Predicate sets and combinators as a whole *)



(** X18. A combinator [AND] or [OR] over filters that all compile gives
    their clauses, in order, joined by the operator and wrapped in one pair
    of parentheses; without inner filter this is [()]. *)
Theorem combinator_joins_clauses (op : string) (filters : list value)
  (clauses : list string) :
  op = "AND" \/ op = "OR" ->
  Forall2 (fun F C => filterToSql F = Ok C) filters clauses ->
  filterToSql (JArr (JStr op :: filters))
  = Ok ("(" ++ join (" " ++ op ++ " ") clauses ++ ")") /\
  (filters = [] -> filterToSql (JArr (JStr op :: filters)) = Ok "()").
Proof.
  intros Hop H. apply mapM_Forall2 in H.
  assert (Hgo : filterToSql (JArr (JStr op :: filters))
                = Ok ("(" ++ join (" " ++ op ++ " ") clauses ++ ")")).
  { cbn [filterToSql]. unfold arrayToSql.
    replace (String.eqb op "AND" || String.eqb op "OR") with true
      by (destruct Hop as [-> | ->]; reflexivity).
    rewrite H. reflexivity. }
  split; [exact Hgo |].
  intros ->. rewrite Hgo. simpl in H. injection H as <-. reflexivity.
Qed.

Lemma combinator_joins_clauses_witness :
  filterToSql (JArr [JStr "OR";
                     JObj [("tree.height", JNum 1)];
                     JObj [("plot.type", JNum 2)]])
  = Ok ("(" ++ join (" " ++ "OR" ++ " ")
                 ["(" ++ quoted "treemap_tree" ++ "." ++ quoted "height"
                  ++ " = 1)";
                  "(" ++ quoted "treemap_plot" ++ "." ++ quoted "type"
                  ++ " = 2)"] ++ ")").
Proof.
  apply (combinator_joins_clauses "OR"
           [JObj [("tree.height", JNum 1)]; JObj [("plot.type", JNum 2)]]);
    [right; reflexivity |].
  constructor; [reflexivity |]. constructor; [reflexivity | constructor].
Defined.



(** X20. A combinator gives no partial result: when an inner filter throws
    and the filters before it compile, the combinator throws the same
    exception, whatever follows. *)
Theorem combinator_propagates_first_error (op : string)
  (before after : list value) (clauses : list string) (F : value) (e : exn) :
  op = "AND" \/ op = "OR" ->
  Forall2 (fun F C => filterToSql F = Ok C) before clauses ->
  filterToSql F = Throw e ->
  filterToSql (JArr (JStr op :: before ++ F :: after)%list) = Throw e.
Proof.
  intros Hop H HF. apply mapM_Forall2 in H.
  cbn [filterToSql]. unfold arrayToSql.
  replace (String.eqb op "AND" || String.eqb op "OR") with true
    by (destruct Hop as [-> | ->]; reflexivity).
  now rewrite (mapM_first_throw _ _ _ _ _ _ H HF).
Qed.

Lemma combinator_propagates_first_error_witness :
  filterToSql (JArr (JStr "AND"
                     :: [JObj [("tree.height", JNum 1)]]
                        ++ JNum 7 :: [JObj [("foo.x", JNum 1)]])%list)
  = Throw (Error "A filter must be an Object or an Array").
Proof.
  apply (combinator_propagates_first_error "AND"
           [JObj [("tree.height", JNum 1)]] [JObj [("foo.x", JNum 1)]]
           ["(" ++ quoted "treemap_tree" ++ "." ++ quoted "height" ++ " = 1)"]
           (JNum 7));
    [left; reflexivity | | reflexivity].
  constructor; [reflexivity | constructor].
Defined.

Lemma clause_not_empty (fieldName : string) (predicate : value) :
  fieldNameAndPredicateToSql fieldName predicate <> Ok "".
Proof.
  unfold fieldNameAndPredicateToSql.
  destruct (fieldNameToColumnName fieldName); [| discriminate].
  cbn [bind]. destruct (predicateToFilterObjects predicate); discriminate.
Qed.

(** X21. The empty clause comes from the empty predicate set only: for a
    filter that is not an object with a numeric [length] entry, the result
    is the empty string exactly when the filter is the object without
    fields. *)
Theorem empty_clause_iff_empty_predicate_set (f : value) :
  Spec.numeric_length f = false ->
  (filterToSql f = Ok "" <-> f = JObj []).
Proof.
  intros _. split; [| intros ->; reflexivity].
  destruct f as [| | | | | a | o]; try discriminate.
  - cbn [filterToSql]. unfold arrayToSql.
    destruct a as [|a0 filters]; [discriminate |].
    destruct a0; try discriminate.
    destruct (String.eqb s "AND" || String.eqb s "OR"); [| discriminate].
    destruct (mapM filterToSql filters); discriminate.
  - destruct o as [|[fieldName v] o]; [reflexivity |].
    cbn [filterToSql]. unfold objectToSql. cbn [mapM].
    pose proof (clause_not_empty fieldName
                  (if negb (Value.isObject v) then JObj [("IS", v)] else v))
      as Hne.
    destruct (fieldNameAndPredicateToSql fieldName _) as [st | e];
      [| discriminate].
    cbn [bind]. destruct (mapM _ o) as [sts | e]; [| discriminate].
    cbn [bind]. intros H. exfalso. injection H as H.
    destruct st as [|c st]; [now apply Hne |].
    destruct sts; discriminate H.
Qed.

Lemma empty_clause_iff_empty_predicate_set_witness :
  Spec.numeric_length (JObj []) = false /\ filterToSql (JObj []) = Ok "".
Proof.
  split; [reflexivity |].
  apply (empty_clause_iff_empty_predicate_set (JObj []) eq_refl).
  reflexivity.
Defined.

(** ** The exceptions of the compiler *)













